(** * Carbon_Credit: the verifier dashboard's review workflow

    A shallow embedding of
    [src/components/dashboards/VerifierDashboard.tsx] and of the
    [certificate_requests] migration.  The Supabase store is a record of
    tables, a table is a list of rows; the React component state is a
    record; the three asynchronous functions of the component
    ([fetchVerifierData], [handleVerifyProject],
    [handleCertificateRequest]) are computations in a state-and-exception
    monad over the pair of both.  Gateway calls may fail: what each call
    answers is read from a script carried by the world, so every theorem
    quantifies over the failures it allows. *)

From Stdlib Require Import String Ascii ZArith List Bool Lia.
From Stdlib Require Import Sorting.Sorted Sorting.Permutation.
From Stdlib Require DecimalString.
From ExtLib Require Import Structures.Monad Structures.MonadState Structures.MonadExc.
From ExtLib Require Import Data.Monads.StateMonad Data.Monads.EitherMonad.
Import ListNotations.
Import MonadNotation.
Local Open Scope monad_scope.
Local Open Scope string_scope.

(** ** Data model *)

(** Instants ([timestamp with time zone], [new Date()]) are milliseconds
    since the epoch.  Numeric columns are carried, never computed with. *)
Definition Timestamp := Z.
Definition Uuid := string.

(** [x || d] on a value that is [null] when the gateway call failed. *)
Definition or_default {A} (x : option A) (d : A) : A :=
  match x with Some a => a | None => d end.

Module ProfileRow.
Record t := mk
  { id : Uuid;
    full_name : string;
    organization : option string;
    role : string }.
End ProfileRow.

(** The [projects] table: the columns of the [Project] interface and the
    three review columns written by [handleVerifyProject]. *)
Module ProjectRow.
Record t := mk
  { id : Uuid;
    title : string;
    location : string;
    area_hectares : Z;
    description : string;
    status : string;
    estimated_credits : Z;
    submitted_at : Timestamp;
    submitter_id : Uuid;
    verifier_id : option Uuid;
    verification_notes : option string;
    verified_at : option Timestamp }.

(** The object passed to [.update(...)].  A key whose value is
    [undefined] ([profile?.id] without a profile) is dropped when the
    payload is serialised, so its column keeps its value; [null] is
    written as such. *)
Record patch := mk_patch
  { set_status : string;
    set_verifier_id : option Uuid;
    set_verification_notes : string;
    set_verified_at : option Timestamp }.

Definition update (p : patch) (r : t) : t :=
  mk (id r) (title r) (location r) (area_hectares r) (description r)
     (set_status p)
     (estimated_credits r) (submitted_at r) (submitter_id r)
     (match set_verifier_id p with
      | Some v => Some v
      | None => verifier_id r
      end)
     (Some (set_verification_notes p))
     (set_verified_at p).
End ProjectRow.

(** [carbon_credits]: the columns of the insert payload. *)
Module CarbonCreditRow.
Record t := mk
  { project_id : Uuid;
    owner_id : Uuid;
    credits_amount : Z;
    status : string }.
End CarbonCreditRow.

(** [certificates]: the columns of the two insert payloads; a key that is
    absent or [undefined] leaves the column [NULL]. *)
Module CertificateRow.
Record t := mk
  { project_id : Uuid;
    generated_by : option Uuid;
    certificate_url : option string }.
End CertificateRow.

(** [certificate_requests], column by column as the migration creates it:
    only [id], [project_id] and [requester_id] are [NOT NULL]. *)
Module CertificateRequestRow.
Record t := mk
  { id : Uuid;
    project_id : Uuid;
    requester_id : Uuid;
    status : option string;
    requested_at : option Timestamp;
    processed_at : option Timestamp;
    processed_by : option Uuid;
    notes : option string;
    created_at : option Timestamp;
    updated_at : option Timestamp }.

Record patch := mk_patch
  { set_status : string;
    set_processed_at : Timestamp;
    set_processed_by : option Uuid;
    set_notes : option string }.

Definition update (p : patch) (r : t) : t :=
  mk (id r) (project_id r) (requester_id r)
     (Some (set_status p))
     (requested_at r)
     (Some (set_processed_at p))
     (match set_processed_by p with
      | Some v => Some v
      | None => processed_by r
      end)
     (match set_notes p with
      | Some n => Some n
      | None => notes r
      end)
     (created_at r) (updated_at r).
End CertificateRequestRow.

Record Database := mkDatabase
  { profiles : list ProfileRow.t;
    projects : list ProjectRow.t;
    carbon_credits : list CarbonCreditRow.t;
    certificates : list CertificateRow.t;
    certificate_requests : list CertificateRequestRow.t }.

(** *** What the queries return *)

(** [profiles!projects_submitter_id_fkey (full_name, organization)] *)
Record SubmitterSummary := mkSubmitterSummary
  { submitter_full_name : string;
    submitter_organization : option string }.

(** The [Project] interface: [*] is the row, [profiles] the embedded
    submitter ([null] when the foreign key resolves to nothing). *)
Module Project.
Record t := mk
  { row : ProjectRow.t;
    profiles : option SubmitterSummary }.
Definition id (p : t) : Uuid := ProjectRow.id (row p).
Definition status (p : t) : string := ProjectRow.status (row p).
Definition submitter_id (p : t) : Uuid := ProjectRow.submitter_id (row p).
Definition estimated_credits (p : t) : Z := ProjectRow.estimated_credits (row p).
Definition submitted_at (p : t) : Timestamp := ProjectRow.submitted_at (row p).
End Project.

Record ProjectSummary := mkProjectSummary
  { summary_id : Uuid;
    summary_title : string;
    summary_location : string;
    summary_area_hectares : Z;
    summary_estimated_credits : Z;
    summary_verified_at : option Timestamp }.

Record RequesterSummary := mkRequesterSummary
  { requester_full_name : string;
    requester_organization : option string;
    requester_role : string }.

(** An element of [certificateRequests] ([any[]] in the component). *)
Module CertificateRequest.
Record t := mk
  { row : CertificateRequestRow.t;
    projects : option ProjectSummary;
    profiles : option RequesterSummary }.
Definition id (r : t) : Uuid := CertificateRequestRow.id (row r).
Definition project_id (r : t) : Uuid := CertificateRequestRow.project_id (row r).
End CertificateRequest.

(** ** Component state *)

Record Stats := mkStats
  { pendingReviews : nat;
    verifiedProjects : nat;
    rejectedProjects : nat;
    totalReviewed : nat }.

Record Toast := mkToast
  { toast_title : string;
    toast_description : string;
    toast_variant : option string }.

(** The [useState] cells of [VerifierDashboard], and [profile] from
    [useAuth]. *)
Record Session := mkSession
  { profile : option ProfileRow.t;
    pendingProjects : list Project.t;
    selectedProject : option Project.t;
    verificationNotes : string;
    certificateRequests : list CertificateRequest.t;
    stats : Stats;
    loading : bool }.

(** The state a freshly mounted component starts from. *)
Definition initial_session (who : option ProfileRow.t) : Session :=
  mkSession who [] None "" [] (mkStats 0 0 0 0) true.

(** ** The world *)

(** What the gateway answers to one call: how long the call took and,
    when it failed, the [message] of the error object. *)
Record Reply := mkReply
  { latency : Z;
    failure : option string }.

Definition ok : Reply := mkReply 0 None.
Definition failed (message : string) : Reply := mkReply 0 (Some message).

Record World := mkWorld
  { db : Database;
    ui : Session;
    clock : Timestamp;
    script : list Reply;
    toasts : list Toast;
    console : list (string * string) }.

Definition with_db (d : Database) (w : World) : World :=
  mkWorld d (ui w) (clock w) (script w) (toasts w) (console w).
Definition with_ui (s : Session) (w : World) : World :=
  mkWorld (db w) s (clock w) (script w) (toasts w) (console w).
Definition with_toasts (t : list Toast) (w : World) : World :=
  mkWorld (db w) (ui w) (clock w) (script w) t (console w).
Definition with_console (c : list (string * string)) (w : World) : World :=
  mkWorld (db w) (ui w) (clock w) (script w) (toasts w) c.

(** ** The monad of the component's asynchronous functions

    State is the world; an exception is the [message] of the thrown
    error.  The state survives a [throw]: what was written to the store
    before it stays written. *)
Definition Action := eitherT string (state World).

Definition run {A} (c : Action A) (w : World) : (string + A) * World :=
  runState (unEitherT c) w.

(** The world once the computation has settled. *)
Definition exec {A} (c : Action A) (w : World) : World := snd (run c w).

Definition skip : Action unit := ret tt.

(** [if (error) throw error] *)
Definition throw_if (error : option string) : Action unit :=
  match error with
  | Some message => raise message
  | None => skip
  end.

(** [new Date()] and [Date.now()] *)
Definition date_now : Action Timestamp := gets clock.

Definition toast (t : Toast) : Action unit :=
  w <- get ;;
  put (with_toasts (toasts w ++ [t]) w).

(** [console.error(label, error)] *)
Definition console_error (label message : string) : Action unit :=
  w <- get ;;
  put (with_console (console w ++ [(label, message)]) w).

Definition set_state (f : Session -> Session) : Action unit :=
  w <- get ;;
  put (with_ui (f (ui w)) w).

Definition setPendingProjects (l : list Project.t) : Action unit :=
  set_state (fun s => mkSession (profile s) l (selectedProject s)
    (verificationNotes s) (certificateRequests s) (stats s) (loading s)).
Definition setSelectedProject (p : option Project.t) : Action unit :=
  set_state (fun s => mkSession (profile s) (pendingProjects s) p
    (verificationNotes s) (certificateRequests s) (stats s) (loading s)).
Definition setVerificationNotes (n : string) : Action unit :=
  set_state (fun s => mkSession (profile s) (pendingProjects s)
    (selectedProject s) n (certificateRequests s) (stats s) (loading s)).
Definition setCertificateRequests (l : list CertificateRequest.t) : Action unit :=
  set_state (fun s => mkSession (profile s) (pendingProjects s)
    (selectedProject s) (verificationNotes s) l (stats s) (loading s)).
Definition setStats (st : Stats) : Action unit :=
  set_state (fun s => mkSession (profile s) (pendingProjects s)
    (selectedProject s) (verificationNotes s) (certificateRequests s) st
    (loading s)).
Definition setLoading (b : bool) : Action unit :=
  set_state (fun s => mkSession (profile s) (pendingProjects s)
    (selectedProject s) (verificationNotes s) (certificateRequests s)
    (stats s) b).

(** ** The persistence gateway *)

(** One round trip: the next reply of the script is consumed and the
    clock moves by its latency.  An exhausted script answers [ok]. *)
Definition round_trip : Action (option string) :=
  w <- get ;;
  let r := hd ok (script w) in
  put (mkWorld (db w) (ui w) (clock w + latency r)%Z (tl (script w))
               (toasts w) (console w)) ;;
  ret (failure r).

(** A write answers [{ error }]; a failed write leaves the store as it
    was. *)
Definition gateway_write (f : Database -> Database) : Action (option string) :=
  error <- round_trip ;;
  match error with
  | Some message => ret (Some message)
  | None =>
      w <- get ;;
      put (with_db (f (db w)) w) ;;
      ret None
  end.

(** A read answers [{ data }]; [data] is [null] when the call failed. *)
Definition gateway_read {A} (q : Database -> A) : Action (option A) :=
  error <- round_trip ;;
  match error with
  | Some _ => ret None
  | None => d <- gets db ;; ret (Some (q d))
  end.

(** [.update(payload).eq('id', key)] on a table *)
Definition update_where_id {R} (id : R -> Uuid) (upd : R -> R) (key : Uuid)
    (table : list R) : list R :=
  map (fun r => if id r =? key then upd r else r) table.

Definition update_projects (p : ProjectRow.patch) (key : Uuid) : Action (option string) :=
  gateway_write (fun d =>
    mkDatabase (profiles d)
      (update_where_id ProjectRow.id (ProjectRow.update p) key (projects d))
      (carbon_credits d) (certificates d) (certificate_requests d)).

Definition update_certificate_requests (p : CertificateRequestRow.patch)
    (key : Uuid) : Action (option string) :=
  gateway_write (fun d =>
    mkDatabase (profiles d) (projects d) (carbon_credits d) (certificates d)
      (update_where_id CertificateRequestRow.id
         (CertificateRequestRow.update p) key (certificate_requests d))).

Definition insert_carbon_credits (r : CarbonCreditRow.t) : Action (option string) :=
  gateway_write (fun d =>
    mkDatabase (profiles d) (projects d) (carbon_credits d ++ [r])
      (certificates d) (certificate_requests d)).

Definition insert_certificates (r : CertificateRow.t) : Action (option string) :=
  gateway_write (fun d =>
    mkDatabase (profiles d) (projects d) (carbon_credits d)
      (certificates d ++ [r]) (certificate_requests d)).

(** *** Queries *)

(** [.order(column, { ascending: true })]: rows are inserted one by one
    into the sorted rest; [leb a b] says that [a] may come before [b]. *)
Section Order.
Context {R : Type} (leb : R -> R -> bool).

Fixpoint insert_sorted (x : R) (l : list R) : list R :=
  match l with
  | [] => [x]
  | y :: l' => if leb x y then x :: l else y :: insert_sorted x l'
  end.

Fixpoint order_ascending (l : list R) : list R :=
  match l with
  | [] => []
  | x :: l' => insert_sorted x (order_ascending l')
  end.
End Order.

(** [.in('status', values)] *)
Definition status_in (values : list string) (s : string) : bool :=
  existsb (String.eqb s) values.

Definition awaiting_review (r : ProjectRow.t) : bool :=
  status_in ["pending"; "under_review"] (ProjectRow.status r).

Definition submitted_leb (a b : ProjectRow.t) : bool :=
  (ProjectRow.submitted_at a <=? ProjectRow.submitted_at b)%Z.

Definition find_profile (d : Database) (key : Uuid) : option ProfileRow.t :=
  find (fun p => ProfileRow.id p =? key) (profiles d).

Definition find_project (d : Database) (key : Uuid) : option ProjectRow.t :=
  find (fun p => ProjectRow.id p =? key) (projects d).

Definition find_request (d : Database) (key : Uuid) : option CertificateRequestRow.t :=
  find (fun r => CertificateRequestRow.id r =? key) (certificate_requests d).

Definition with_submitter (d : Database) (r : ProjectRow.t) : Project.t :=
  Project.mk r
    (option_map
       (fun p => mkSubmitterSummary (ProfileRow.full_name p) (ProfileRow.organization p))
       (find_profile d (ProjectRow.submitter_id r))).

(** The first query of [fetchVerifierData]. *)
Definition listPendingProjects (d : Database) : list Project.t :=
  map (with_submitter d)
      (order_ascending submitted_leb (filter awaiting_review (projects d))).

(** [.eq('status', 'pending')]: a [NULL] status matches nothing. *)
Definition request_pending (r : CertificateRequestRow.t) : bool :=
  match CertificateRequestRow.status r with
  | Some s => s =? "pending"
  | None => false
  end.

(** Ascending order puts [NULL] last. *)
Definition requested_leb (a b : CertificateRequestRow.t) : bool :=
  match CertificateRequestRow.requested_at a, CertificateRequestRow.requested_at b with
  | Some x, Some y => (x <=? y)%Z
  | Some _, None => true
  | None, Some _ => false
  | None, None => true
  end.

Definition with_project_and_requester (d : Database)
    (r : CertificateRequestRow.t) : CertificateRequest.t :=
  CertificateRequest.mk r
    (option_map
       (fun p => mkProjectSummary (ProjectRow.id p) (ProjectRow.title p)
                   (ProjectRow.location p) (ProjectRow.area_hectares p)
                   (ProjectRow.estimated_credits p) (ProjectRow.verified_at p))
       (find_project d (CertificateRequestRow.project_id r)))
    (option_map
       (fun p => mkRequesterSummary (ProfileRow.full_name p)
                   (ProfileRow.organization p) (ProfileRow.role p))
       (find_profile d (CertificateRequestRow.requester_id r))).

(** The second query of [fetchVerifierData]. *)
Definition listPendingRequests (d : Database) : list CertificateRequest.t :=
  map (with_project_and_requester d)
      (order_ascending requested_leb (filter request_pending (certificate_requests d))).

(** [.not('verifier_id', 'is', null)] *)
Definition has_verifier (r : ProjectRow.t) : bool :=
  match ProjectRow.verifier_id r with Some _ => true | None => false end.

(** The third query: [select('status')] of the reviewed projects. *)
Definition reviewedStatuses (d : Database) : list string :=
  map ProjectRow.status (filter has_verifier (projects d)).

(** ** The component's functions *)

(** The [status] parameter of [handleVerifyProject]. *)
Module Review.
Inductive status := verified | rejected.
Definition to_string (s : status) : string :=
  match s with verified => "verified" | rejected => "rejected" end.
End Review.

(** The [status] parameter of [handleCertificateRequest]. *)
Module Processing.
Inductive status := approved | rejected.
Definition to_string (s : status) : string :=
  match s with approved => "approved" | rejected => "rejected" end.
End Processing.

(** [`${n}`] for an integral number *)
Definition decimal (n : Z) : string :=
  DecimalString.NilZero.string_of_int (Z.to_int n).

Definition count_status (s : string) (l : list string) : nat :=
  length (filter (fun x => x =? s) l).

(** The gateway never throws, it answers [{ data: null, error }]; the
    [catch] arm is kept as the source has it. *)
Definition fetchVerifierData : Action unit :=
  catch
    (pendingData <- gateway_read listPendingProjects ;;
     certificateRequestsData <- gateway_read listPendingRequests ;;
     allProjects <- gateway_read reviewedStatuses ;;
     let verifiedCount :=
       or_default (option_map (count_status "verified") allProjects) 0 in
     let rejectedCount :=
       or_default (option_map (count_status "rejected") allProjects) 0 in
     setPendingProjects (or_default pendingData []) ;;
     setCertificateRequests (or_default certificateRequestsData []) ;;
     setStats
       (mkStats (or_default (option_map (@length _) pendingData) 0)
                verifiedCount
                rejectedCount
                (verifiedCount + rejectedCount)))
    (fun error =>
       console_error "Error fetching verifier data:" error ;;
       toast (mkToast "Error" "Failed to fetch verification data"
                      (Some "destructive"))) ;;
  setLoading false.

(** [profile], [verificationNotes] and [pendingProjects] are those of the
    render whose button was clicked: they are read once, on entry.  The
    refresh at the end is not awaited by the source; here it has settled
    when the function returns. *)
Definition handleVerifyProject (projectId : Uuid) (status : Review.status)
    : Action unit :=
  s <- gets ui ;;
  catch
    (now <- date_now ;;
     updateError <-
       update_projects
         (ProjectRow.mk_patch
            (Review.to_string status)
            (option_map ProfileRow.id (profile s))
            (verificationNotes s)
            (match status with
             | Review.verified => Some now
             | Review.rejected => None
             end))
         projectId ;;
     throw_if updateError ;;
     (match status with
      | Review.verified =>
          match find (fun p => Project.id p =? projectId) (pendingProjects s) with
          | Some project =>
              creditError <-
                insert_carbon_credits
                  (CarbonCreditRow.mk projectId
                     (Project.submitter_id project)
                     (Project.estimated_credits project)
                     "active") ;;
              throw_if creditError ;;
              stamp <- date_now ;;
              certificateError <-
                insert_certificates
                  (CertificateRow.mk projectId
                     (option_map ProfileRow.id (profile s))
                     (Some ("auto_cert_" ++ projectId ++ "_" ++ decimal stamp ++ ".pdf"))) ;;
              match certificateError with
              | Some message =>
                  console_error "Error auto-generating certificate:" message
              | None => skip
              end
          | None => skip
          end
      | Review.rejected => skip
      end) ;;
     toast (mkToast "Success"
              ("Project " ++ Review.to_string status ++ " successfully"
               ++ match status with
                  | Review.verified => " and certificate auto-generated"
                  | Review.rejected => ""
                  end)
              None) ;;
     fetchVerifierData ;;
     setSelectedProject None ;;
     setVerificationNotes "")
    (fun message => toast (mkToast "Error" message (Some "destructive"))).

(** [notes] is optional: the approve button passes none, and the key is
    then dropped from the payload. *)
Definition handleCertificateRequest (requestId projectId : Uuid)
    (status : Processing.status) (notes : option string) : Action unit :=
  s <- gets ui ;;
  catch
    (now <- date_now ;;
     updateError <-
       update_certificate_requests
         (CertificateRequestRow.mk_patch
            (Processing.to_string status)
            now
            (option_map ProfileRow.id (profile s))
            notes)
         requestId ;;
     throw_if updateError ;;
     (match status with
      | Processing.approved =>
          certificateError <-
            insert_certificates
              (CertificateRow.mk projectId
                 (option_map ProfileRow.id (profile s))
                 None) ;;
          throw_if certificateError
      | Processing.rejected => skip
      end) ;;
     toast (mkToast "Certificate Request Processed"
              ("Certificate request has been " ++ Processing.to_string status)
              None) ;;
     fetchVerifierData)
    (fun message =>
       toast (mkToast "Error"
                (if message =? "" then "Failed to process certificate request"
                 else message)
                (Some "destructive"))).

(** ** A small store to run the functions on *)

Module Sample.
Local Open Scope Z_scope.

Definition submitter : ProfileRow.t :=
  ProfileRow.mk "U1" "Asha" (Some "Mangrove Trust") "submitter".
Definition reviewer : ProfileRow.t :=
  ProfileRow.mk "V1" "Ravi" None "verifier".
Definition second_reviewer : ProfileRow.t :=
  ProfileRow.mk "V2" "Meera" None "verifier".

Definition project : ProjectRow.t :=
  ProjectRow.mk "P1" "Mangroves" "Sundarbans" 40 "Replanting" "pending"
    500 1000 "U1" None None None.
Definition older_project : ProjectRow.t :=
  ProjectRow.mk "P2" "Seagrass" "Chilika" 12 "Meadow" "under_review"
    120 900 "U1" None None None.
Definition reviewed_project : ProjectRow.t :=
  ProjectRow.mk "P3" "Salt marsh" "Kutch" 7 "Restoration" "verified"
    70 800 "U1" (Some "V1") (Some "fine") (Some 950).

Definition request : CertificateRequestRow.t :=
  CertificateRequestRow.mk "R1" "P3" "U1" (Some "pending") (Some 1100)
    None None None (Some 1100) (Some 1100).

Definition store : Database :=
  mkDatabase [submitter; reviewer; second_reviewer]
    [project; older_project; reviewed_project] [] [] [request].

(** A world whose component has just been mounted for [who]. *)
Definition mounted (who : ProfileRow.t) (d : Database) (answers : list Reply) : World :=
  mkWorld d (initial_session (Some who)) 2000 answers [] [].

(** ... and has loaded its lists. *)
Definition loaded (who : ProfileRow.t) (d : Database) (answers : list Reply) : World :=
  exec fetchVerifierData (mounted who d ([ok; ok; ok] ++ answers)).
End Sample.

(** ** What one round trip does to the world *)

(** The answer the next gateway call will get, and the world after it. *)
Definition answer (w : World) : option string :=
  failure (hd ok (script w)).

Definition tick (w : World) : World :=
  mkWorld (db w) (ui w) (clock w + latency (hd ok (script w)))%Z
          (tl (script w)) (toasts w) (console w).

(** [data] of a read that got [error] from the gateway. *)
Definition data_of {A} (error : option string) (rows : A) : option A :=
  match error with
  | Some _ => None
  | None => Some rows
  end.

(** Names for what the theorems talk about: the payload of the project
    update, and the toast of a catch arm. *)
Definition review_patch (s : Session) (status : Review.status) (now : Timestamp)
    : ProjectRow.patch :=
  ProjectRow.mk_patch (Review.to_string status)
    (option_map ProfileRow.id (profile s))
    (verificationNotes s)
    (match status with
     | Review.verified => Some now
     | Review.rejected => None
     end).

Definition error_toast (message : string) : Toast :=
  mkToast "Error" message (Some "destructive").

(** The credits issued for one project. *)
Definition credits_of (projectId : Uuid) (d : Database) : list CarbonCreditRow.t :=
  filter (fun c => CarbonCreditRow.project_id c =? projectId) (carbon_credits d).

(** The world once a refresh has settled. *)
Definition refreshed (w : World) : World := exec fetchVerifierData w.

(** The first [n] gateway calls to come succeed. *)
Definition succeed (n : nat) (w : World) : Prop :=
  Forall (fun r => failure r = None) (firstn n (script w)).

(** The gateway call after the next [n] fails with [message]. *)
Definition fails_at (n : nat) (message : string) (w : World) : Prop :=
  option_map failure (nth_error (script w) n) = Some (Some message).

(** ** What the component renders *)

(** The buttons of the dashboard, each with what its [onClick] passes on. *)
Inductive Control :=
| ViewAllProjects
| ReviewProject (project : Project.t)
| VerifyApprove (projectId : Uuid)
| RejectProject (projectId : Uuid)
| CancelReview
| GenerateCertificate (project : Project.t)
| ApproveCertificate (requestId projectId : Uuid)
| RejectCertificate (requestId projectId : Uuid) (notes : string).

(** [selectedProject?.id === project.id] *)
Definition under_review_here (s : Session) (project : Project.t) : bool :=
  match selectedProject s with
  | Some chosen => Project.id chosen =? Project.id project
  | None => false
  end.

(** The buttons of one project card. *)
Definition project_card (s : Session) (project : Project.t) : list Control :=
  if under_review_here s project then
    [VerifyApprove (Project.id project);
     RejectProject (Project.id project);
     CancelReview]
  else
    ReviewProject project ::
    (if Project.status project =? "verified" then [GenerateCertificate project]
     else []).

(** The buttons of one certificate request card. *)
Definition request_card (request : CertificateRequest.t) : list Control :=
  [ApproveCertificate (CertificateRequest.id request)
     (CertificateRequest.project_id request);
   RejectCertificate (CertificateRequest.id request)
     (CertificateRequest.project_id request) "Certificate request rejected"].

(** All the buttons on the page: none while [loading], the skeleton has
    none; an empty list renders its placeholder, which has none either. *)
Definition render (s : Session) : list Control :=
  if loading s then []
  else
    (ViewAllProjects :: flat_map (project_card s) (pendingProjects s))
    ++ flat_map request_card (certificateRequests s).

(** ** The constraints of the migration *)

(** [status VARCHAR(20) ... CHECK (status IN ('pending', 'approved',
    'rejected'))]; a [NULL] status passes a [CHECK]. *)
Definition status_check (r : CertificateRequestRow.t) : bool :=
  match CertificateRequestRow.status r with
  | Some s =>
      (String.length s <=? 20)%nat
      && status_in ["pending"; "approved"; "rejected"] s
  | None => true
  end.

(** ** Properties of rows *)

(** [verified_at] is set exactly on the verified projects. *)
Definition dated (r : ProjectRow.t) : Prop :=
  ProjectRow.status r = "verified" <-> ProjectRow.verified_at r <> None.

(** [a] may come before [b] in ascending order, [NULL] last. *)
Definition requested_before (a b : CertificateRequestRow.t) : Prop :=
  match CertificateRequestRow.requested_at a, CertificateRequestRow.requested_at b with
  | Some x, Some y => (x <= y)%Z
  | _, None => True
  | None, Some _ => False
  end.

(** The lists on the page are those of the store, or empty where the
    read was refused, and the page is past its skeleton. *)
Definition reloaded (w : World) : Prop :=
  loading (ui w) = false
  /\ (pendingProjects (ui w) = []
      \/ pendingProjects (ui w) = listPendingProjects (db w))
  /\ (certificateRequests (ui w) = []
      \/ certificateRequests (ui w) = listPendingRequests (db w)).

(** ** A store with a backlog of requests *)

Module Backlog.
Local Open Scope Z_scope.

Definition later_request : CertificateRequestRow.t :=
  CertificateRequestRow.mk "R2" "P3" "U1" (Some "pending") (Some 1200)
    None None None (Some 1200) (Some 1200).

Definition store : Database :=
  mkDatabase (profiles Sample.store) (projects Sample.store) [] []
    [Sample.request; later_request].
End Backlog.

(** ** A page that has gone stale *)

(** The dashboard is loaded from the sample store and P1 is selected for
    review; the row of P1 is then edited in the store (another amount,
    another submitter) and stays [pending].  The page still shows, and
    holds, the entry as loaded. *)
Module Stale.
Local Open Scope Z_scope.

Definition edited_project : ProjectRow.t :=
  ProjectRow.mk "P1" "Mangroves" "Sundarbans" 40 "Replanting" "pending"
    700 1000 "V2" None None None.

Definition store : Database :=
  mkDatabase (profiles Sample.store)
    [edited_project; Sample.older_project; Sample.reviewed_project]
    [] [] [Sample.request].

Definition page : World :=
  with_db store
    (exec (setSelectedProject (Some (with_submitter Sample.store Sample.project)))
          (Sample.loaded Sample.reviewer Sample.store [])).
End Stale.

(** * Running the monad *)

Section RunEquations.
Context {A B : Type}.

Lemma run_ret (a : A) w : run (ret a) w = (inr a, w).
Proof. reflexivity. Qed.

Lemma run_bind (m : Action A) (k : A -> Action B) w :
  run (bind m k) w =
  match run m w with
  | (inr a, w') => run (k a) w'
  | (inl e, w') => (inl e, w')
  end.
Proof.
  unfold run; simpl.
  destruct (runState (unEitherT m) w) as [[e | a] w']; reflexivity.
Qed.

Lemma run_catch (m : Action A) (h : string -> Action A) w :
  run (catch m h) w =
  match run m w with
  | (inr a, w') => (inr a, w')
  | (inl e, w') => run (h e) w'
  end.
Proof.
  unfold run; simpl.
  destruct (runState (unEitherT m) w) as [[e | a] w']; reflexivity.
Qed.

Lemma run_raise (e : string) w : run (raise e : Action A) w = (inl e, w).
Proof. reflexivity. Qed.

Lemma run_gets (f : World -> A) w : run (gets f) w = (inr (f w), w).
Proof. reflexivity. Qed.
End RunEquations.

Lemma run_get w : run (get : Action World) w = (inr w, w).
Proof. reflexivity. Qed.

Lemma run_put w' w : run (put w' : Action unit) w = (inr tt, w').
Proof. reflexivity. Qed.

Lemma run_skip w : run skip w = (inr tt, w).
Proof. reflexivity. Qed.

Lemma run_throw_if error w :
  run (throw_if error) w =
  match error with
  | Some message => (inl message, w)
  | None => (inr tt, w)
  end.
Proof. destruct error; reflexivity. Qed.

Lemma run_date_now w : run date_now w = (inr (clock w), w).
Proof. reflexivity. Qed.

Lemma run_toast t w :
  run (toast t) w = (inr tt, with_toasts (toasts w ++ [t]) w).
Proof. reflexivity. Qed.

Lemma run_console_error label message w :
  run (console_error label message) w =
  (inr tt, with_console (console w ++ [(label, message)]) w).
Proof. reflexivity. Qed.

Lemma run_set_state f w : run (set_state f) w = (inr tt, with_ui (f (ui w)) w).
Proof. reflexivity. Qed.

Lemma run_round_trip w : run round_trip w = (inr (answer w), tick w).
Proof. reflexivity. Qed.

Lemma run_gateway_write f w :
  run (gateway_write f) w =
  (inr (answer w),
   match answer w with
   | Some _ => tick w
   | None => with_db (f (db w)) (tick w)
   end).
Proof.
  unfold gateway_write.
  rewrite run_bind, run_round_trip.
  destruct (answer w) as [message |]; [apply run_ret |].
  rewrite run_bind, run_get, run_bind, run_put. apply run_ret.
Qed.

Lemma run_gateway_read {A} (q : Database -> A) w :
  run (gateway_read q) w = (inr (data_of (answer w) (q (db w))), tick w).
Proof.
  unfold gateway_read.
  rewrite run_bind, run_round_trip.
  destruct (answer w) as [message |]; [apply run_ret |].
  rewrite run_bind, run_gets. apply run_ret.
Qed.

(** Worlds are compared field by field: getters, setters and round
    trips are unfolded, nothing else. *)
Ltac normalise :=
  cbv beta delta [with_db with_ui with_toasts with_console tick answer];
  cbn [db ui clock script toasts console
       profiles projects carbon_credits certificates certificate_requests
       fst snd].

(** Symbolic execution: push [run] through the next statement, and keep
    the world reached in normal form. *)
Ltac run_statement :=
  first
    [ rewrite run_bind | rewrite run_catch | rewrite run_ret | rewrite run_get
    | rewrite run_put | rewrite run_gets | rewrite run_raise | rewrite run_skip
    | rewrite run_throw_if | rewrite run_date_now | rewrite run_toast
    | rewrite run_console_error | rewrite run_set_state
    | rewrite run_gateway_write | rewrite run_gateway_read ];
  cbv beta iota zeta; normalise.

Ltac run_all := repeat run_statement.

(** ** [fetchVerifierData] *)

(** The refresh never throws: three round trips, then the four cells are
    set from what came back. *)
Lemma run_fetchVerifierData w :
  run fetchVerifierData w =
  (inr tt,
   let w1 := tick w in
   let w2 := tick w1 in
   let pendingData := data_of (answer w) (listPendingProjects (db w)) in
   let certificateRequestsData := data_of (answer w1) (listPendingRequests (db w)) in
   let allProjects := data_of (answer w2) (reviewedStatuses (db w)) in
   let verifiedCount :=
     or_default (option_map (count_status "verified") allProjects) 0 in
   let rejectedCount :=
     or_default (option_map (count_status "rejected") allProjects) 0 in
   with_ui
     (mkSession (profile (ui w))
        (or_default pendingData [])
        (selectedProject (ui w))
        (verificationNotes (ui w))
        (or_default certificateRequestsData [])
        (mkStats (or_default (option_map (@length _) pendingData) 0)
                 verifiedCount rejectedCount (verifiedCount + rejectedCount))
        false)
     (tick w2)).
Proof.
  unfold fetchVerifierData, setPendingProjects, setCertificateRequests,
    setStats, setLoading.
  run_all.
  normalise.
  reflexivity.
Qed.

(** * The queries *)

(** ** Ordering *)

Section OrderFacts.
Context {R : Type} (leb : R -> R -> bool).
Hypothesis leb_total : forall a b, leb a b = true \/ leb b a = true.
Hypothesis leb_trans : forall a b c, leb a b = true -> leb b c = true -> leb a c = true.

Let before (a b : R) : Prop := leb a b = true.

Lemma insert_sorted_perm x l : Permutation (x :: l) (insert_sorted leb x l).
Proof.
  induction l as [| y l IH]; simpl; [reflexivity |].
  destruct (leb x y); [reflexivity |].
  rewrite perm_swap. now constructor.
Qed.

Lemma order_ascending_perm l : Permutation l (order_ascending leb l).
Proof.
  induction l as [| x l IH]; simpl; [constructor |].
  rewrite <- insert_sorted_perm. now constructor.
Qed.

Lemma insert_sorted_hd z x l :
  before z x -> HdRel before z l -> HdRel before z (insert_sorted leb x l).
Proof.
  intros Hzx Hl. destruct l as [| y l]; simpl; [now constructor |].
  inversion Hl; subst. destruct (leb x y); now constructor.
Qed.

Lemma insert_sorted_keeps x l :
  Sorted before l -> Sorted before (insert_sorted leb x l).
Proof.
  induction 1 as [| y l Hl IH Hy]; simpl.
  - repeat constructor.
  - destruct (leb x y) eqn:E.
    + constructor; [now constructor | now constructor].
    + constructor; [exact IH |].
      apply insert_sorted_hd; [| exact Hy].
      destruct (leb_total x y) as [H | H]; [congruence | exact H].
Qed.

Lemma order_ascending_sorted l : StronglySorted before (order_ascending leb l).
Proof.
  apply Sorted_StronglySorted.
  - intros a b c. apply leb_trans.
  - induction l as [| x l IH]; simpl; [constructor |].
    now apply insert_sorted_keeps.
Qed.
End OrderFacts.

Lemma StronglySorted_map {X Y} (f : X -> Y) (P : X -> X -> Prop) (Q : Y -> Y -> Prop) l :
  (forall a b, P a b -> Q (f a) (f b)) ->
  StronglySorted P l -> StronglySorted Q (map f l).
Proof.
  intros HPQ. induction 1 as [| x l Hl IH Hx]; simpl; constructor; [exact IH |].
  rewrite Forall_forall in *. intros y Hy.
  apply in_map_iff in Hy as (a & <- & Ha). auto.
Qed.

(** ** [listPendingProjects] *)

Lemma awaiting_review_iff r :
  awaiting_review r = true <->
  ProjectRow.status r = "pending" \/ ProjectRow.status r = "under_review".
Proof.
  unfold awaiting_review, status_in; simpl.
  rewrite !orb_true_iff, !String.eqb_eq. intuition discriminate.
Qed.

Lemma rows_of_listPendingProjects d :
  map Project.row (listPendingProjects d) =
  order_ascending submitted_leb (filter awaiting_review (projects d)).
Proof.
  unfold listPendingProjects. rewrite map_map; simpl. apply map_id.
Qed.

(** C9. Whatever the [projects] table holds, the pending-projects query
    returns exactly its rows with status [pending] or [under_review] (each
    one once: the rows returned are a permutation of the rows selected),
    in ascending order of [submitted_at], and none of them has status
    [verified] or [rejected]. *)
Theorem listPendingProjects_exact_and_ordered (d : Database) :
  (forall r, In r (map Project.row (listPendingProjects d)) <->
             In r (projects d) /\
             (ProjectRow.status r = "pending" \/ ProjectRow.status r = "under_review"))
  /\ Permutation (map Project.row (listPendingProjects d))
                 (filter awaiting_review (projects d))
  /\ StronglySorted
       (fun a b => (Project.submitted_at a <= Project.submitted_at b)%Z)
       (listPendingProjects d)
  /\ Forall (fun p => Project.status p <> "verified" /\ Project.status p <> "rejected")
            (listPendingProjects d).
Proof.
  assert (HP : Permutation (map Project.row (listPendingProjects d))
                           (filter awaiting_review (projects d))).
  { rewrite rows_of_listPendingProjects. symmetry. apply order_ascending_perm. }
  assert (HI : forall r, In r (map Project.row (listPendingProjects d)) <->
             In r (projects d) /\
             (ProjectRow.status r = "pending" \/ ProjectRow.status r = "under_review")).
  { intros r. rewrite <- awaiting_review_iff, <- filter_In.
    split; apply Permutation_in; [exact HP | symmetry; exact HP]. }
  split; [exact HI | split; [exact HP | split]].
  - unfold listPendingProjects.
    apply StronglySorted_map with (P := fun a b => submitted_leb a b = true).
    + intros a b H. apply Z.leb_le in H. exact H.
    + apply order_ascending_sorted; unfold submitted_leb.
      * intros a b. rewrite !Z.leb_le. lia.
      * intros a b c. rewrite !Z.leb_le. lia.
  - apply Forall_forall. intros p Hp.
    assert (Hr : In (Project.row p) (map Project.row (listPendingProjects d)))
      by now apply in_map.
    apply HI in Hr as [_ Hs]. unfold Project.status.
    destruct Hs as [-> | ->]; split; discriminate.
Qed.

Lemma run_fetch_settles w : run fetchVerifierData w = (inr tt, refreshed w).
Proof. unfold refreshed, exec. rewrite run_fetchVerifierData. reflexivity. Qed.

(** A refresh writes to the component state only (and uses up three
    replies). *)
Lemma db_refreshed w : db (refreshed w) = db w.
Proof.
  unfold refreshed, exec. rewrite run_fetchVerifierData. cbv zeta.
  now normalise.
Qed.

Lemma toasts_refreshed w : toasts (refreshed w) = toasts w.
Proof.
  unfold refreshed, exec. rewrite run_fetchVerifierData. cbv zeta.
  now normalise.
Qed.

Lemma console_refreshed w : console (refreshed w) = console w.
Proof.
  unfold refreshed, exec. rewrite run_fetchVerifierData. cbv zeta.
  now normalise.
Qed.

(** * The decision functions *)

Ltac run_handler :=
  repeat first
    [ run_statement
    | rewrite run_fetch_settles; cbv beta iota zeta; normalise ].

Lemma succeed_next n w : succeed (S n) w -> answer w = None /\ succeed n (tick w).
Proof.
  unfold succeed, answer, tick; simpl. destruct (script w) as [| r rest]; simpl.
  - intros _. split; [reflexivity |]. rewrite firstn_nil. constructor.
  - intros H. inversion H; subst. split; assumption.
Qed.

Lemma fails_at_now message w : fails_at 0 message w -> answer w = Some message.
Proof.
  unfold fails_at, answer. destruct (script w) as [| r rest]; simpl.
  - discriminate.
  - congruence.
Qed.

Lemma fails_at_next n message w : fails_at (S n) message w -> fails_at n message (tick w).
Proof.
  unfold fails_at, tick; simpl. destruct (script w) as [| r rest]; simpl.
  - discriminate.
  - trivial.
Qed.

(** Decide a test on a gateway answer with what is known about it. *)
Ltac normalise_in H :=
  cbv beta delta [tick answer] in H;
  cbn [db ui clock script toasts console] in H.

Ltac answered H := normalise; normalise_in H; rewrite H; cbv beta iota.

(** ** [handleVerifyProject], path by path *)

Section VerifyPaths.
Variables (w : World) (projectId : Uuid).

Let reviewed (status : Review.status) : list ProjectRow.t :=
  update_where_id ProjectRow.id
    (ProjectRow.update (review_patch (ui w) status (clock w)))
    projectId (projects (db w)).

Let found : option Project.t :=
  find (fun p => Project.id p =? projectId) (pendingProjects (ui w)).

(** The update is refused: the catch arm runs on an untouched store. *)
Lemma verify_update_refused status message :
  answer w = Some message ->
  run (handleVerifyProject projectId status) w =
  (inr tt, with_toasts (toasts w ++ [error_toast message]) (tick w)).
Proof.
  intros H.
  unfold handleVerifyProject, update_projects.
  run_handler. answered H. run_handler. reflexivity.
Qed.

(** Nothing follows the update: a rejection, or an approval of a
    project the rendered list does not hold. *)
Lemma verify_update_only status :
  answer w = None ->
  status = Review.rejected \/ found = None ->
  let w' := exec (handleVerifyProject projectId status) w in
  db w' = mkDatabase (profiles (db w)) (reviewed status) (carbon_credits (db w))
            (certificates (db w)) (certificate_requests (db w))
  /\ toasts w' =
     (toasts w ++
      [mkToast "Success"
         ("Project " ++ Review.to_string status ++ " successfully"
          ++ match status with
             | Review.verified => " and certificate auto-generated"
             | Review.rejected => ""
             end)%string
         None])%list
  /\ console w' = console w.
Proof.
  intros H Hpath. subst reviewed found. unfold exec.
  unfold handleVerifyProject, update_projects, setSelectedProject,
    setVerificationNotes.
  run_handler. answered H. run_handler.
  destruct status.
  - destruct Hpath as [Hpath | Hpath]; [discriminate |].
    rewrite Hpath. run_handler. normalise.
    rewrite db_refreshed, toasts_refreshed, console_refreshed.
    repeat split.
  - run_handler. normalise.
    rewrite db_refreshed, toasts_refreshed, console_refreshed.
    repeat split.
Qed.

Section Found.
Variable project : Project.t.
Hypothesis Hupdate : answer w = None.
Hypothesis Hfound : found = Some project.

Let credit : CarbonCreditRow.t :=
  CarbonCreditRow.mk projectId (Project.submitter_id project)
    (Project.estimated_credits project) "active".

(** The credit insert is refused after the update went through. *)
Lemma verify_credit_refused message :
  answer (tick w) = Some message ->
  let w' := exec (handleVerifyProject projectId Review.verified) w in
  db w' = mkDatabase (profiles (db w)) (reviewed Review.verified)
            (carbon_credits (db w)) (certificates (db w))
            (certificate_requests (db w))
  /\ toasts w' = (toasts w ++ [error_toast message])%list
  /\ console w' = console w
  /\ ui w' = ui w.
Proof.
  intros H. subst reviewed found credit. unfold exec.
  unfold handleVerifyProject, update_projects, insert_carbon_credits.
  run_handler. answered Hupdate. run_handler. rewrite Hfound. run_handler.
  answered H. run_handler. normalise. repeat split.
Qed.

(** Update and credit insert went through; the certificate insert may
    or may not. *)
Lemma verify_credit_issued :
  answer (tick w) = None ->
  let w' := exec (handleVerifyProject projectId Review.verified) w in
  let refused := answer (tick (tick w)) in
  db w' = mkDatabase (profiles (db w)) (reviewed Review.verified)
            (carbon_credits (db w) ++ [credit])%list
            (match refused with
             | Some _ => certificates (db w)
             | None =>
                 (certificates (db w) ++
                  [CertificateRow.mk projectId
                     (option_map ProfileRow.id (profile (ui w)))
                     (Some ("auto_cert_" ++ projectId ++ "_"
                            ++ decimal (clock (tick (tick w))) ++ ".pdf")%string)])%list
             end)
            (certificate_requests (db w))
  /\ toasts w' =
     (toasts w ++
      [mkToast "Success"
         "Project verified successfully and certificate auto-generated" None])%list
  /\ console w' =
     match refused with
     | Some message =>
         (console w ++ [("Error auto-generating certificate:", message)])%list
     | None => console w
     end.
Proof.
  intros H. subst reviewed found credit. unfold exec.
  unfold handleVerifyProject, update_projects, insert_carbon_credits,
    insert_certificates, setSelectedProject, setVerificationNotes.
  run_handler. answered Hupdate. run_handler. rewrite Hfound. run_handler.
  answered H. run_handler. normalise.
  destruct (failure (hd ok (tl (tl (script w))))) as [message |];
    run_handler; normalise;
    rewrite db_refreshed, toasts_refreshed, console_refreshed;
    repeat split.
Qed.
End Found.
End VerifyPaths.

(** ** [handleCertificateRequest], path by path *)

Section RequestPaths.
Variables (w : World) (requestId projectId : Uuid) (notes : option string).

Let processed (status : Processing.status) : list CertificateRequestRow.t :=
  update_where_id CertificateRequestRow.id
    (CertificateRequestRow.update
       (CertificateRequestRow.mk_patch (Processing.to_string status) (clock w)
          (option_map ProfileRow.id (profile (ui w))) notes))
    requestId (certificate_requests (db w)).

Let issued : CertificateRow.t :=
  CertificateRow.mk projectId (option_map ProfileRow.id (profile (ui w))) None.

Let described (message : string) : string :=
  if message =? "" then "Failed to process certificate request" else message.

(** The update is refused: nothing is written. *)
Lemma request_update_refused status message :
  answer w = Some message ->
  run (handleCertificateRequest requestId projectId status notes) w =
  (inr tt, with_toasts (toasts w ++ [error_toast (described message)]) (tick w)).
Proof.
  intros H. subst described.
  unfold handleCertificateRequest, update_certificate_requests.
  run_handler. answered H. run_handler. reflexivity.
Qed.

(** The update went through and so did what follows it. *)
Lemma request_processed status :
  answer w = None ->
  status = Processing.rejected \/ answer (tick w) = None ->
  let w' := exec (handleCertificateRequest requestId projectId status notes) w in
  db w' = mkDatabase (profiles (db w)) (projects (db w)) (carbon_credits (db w))
            (certificates (db w) ++
             match status with
             | Processing.approved => [issued]
             | Processing.rejected => []
             end)%list
            (processed status)
  /\ toasts w' =
     (toasts w ++
      [mkToast "Certificate Request Processed"
         ("Certificate request has been " ++ Processing.to_string status)%string
         None])%list.
Proof.
  intros H Hnext. subst processed issued. unfold exec.
  unfold handleCertificateRequest, update_certificate_requests, insert_certificates.
  run_handler. answered H. run_handler.
  destruct status.
  - destruct Hnext as [Hnext | Hnext]; [discriminate |].
    run_handler. answered Hnext. run_handler.
    rewrite db_refreshed, toasts_refreshed. normalise. split; reflexivity.
  - run_handler.
    rewrite db_refreshed, toasts_refreshed. normalise.
    rewrite app_nil_r. split; reflexivity.
Qed.

(** The certificate insert is refused after the update went through. *)
Lemma request_certificate_refused message :
  answer w = None ->
  answer (tick w) = Some message ->
  let w' := exec (handleCertificateRequest requestId projectId Processing.approved notes) w in
  db w' = mkDatabase (profiles (db w)) (projects (db w)) (carbon_credits (db w))
            (certificates (db w)) (processed Processing.approved)
  /\ toasts w' = (toasts w ++ [error_toast (described message)])%list
  /\ ui w' = ui w.
Proof.
  intros H Hnext. subst processed issued described. unfold exec.
  unfold handleCertificateRequest, update_certificate_requests, insert_certificates.
  run_handler. answered H. run_handler. answered Hnext. run_handler.
  repeat split.
Qed.
End RequestPaths.

(** ** Looking a row up by its key *)

Lemma find_update_where_id {R} (id : R -> Uuid) (upd : R -> R) key (l : list R) :
  (forall r, id (upd r) = id r) ->
  find (fun r => id r =? key) (update_where_id id upd key l) =
  option_map upd (find (fun r => id r =? key) l).
Proof.
  intros Hid. induction l as [| a l IH]; simpl; [reflexivity |].
  destruct (id a =? key) eqn:E.
  - rewrite Hid, E. reflexivity.
  - rewrite E. exact IH.
Qed.

Lemma find_by_key {R} (id : R -> Uuid) (l : list R) (x : R) :
  NoDup (map id l) -> In x l -> find (fun r => id r =? id x) l = Some x.
Proof.
  induction l as [| a l IH]; simpl; [contradiction |].
  intros Hnd [-> | Hin].
  - now rewrite String.eqb_refl.
  - inversion Hnd as [| ? ? Hnotin Hnd']; subst.
    destruct (id a =? id x) eqn:E.
    + apply String.eqb_eq in E. exfalso. apply Hnotin.
      rewrite E. now apply in_map.
    + now apply IH.
Qed.

Lemma NoDup_map_filter {R} (id : R -> Uuid) (f : R -> bool) (l : list R) :
  NoDup (map id l) -> NoDup (map id (filter f l)).
Proof.
  induction l as [| a l IH]; simpl; [trivial |].
  intros Hnd. inversion Hnd as [| ? ? Hnotin Hnd']; subst.
  destruct (f a); simpl; [| now apply IH].
  constructor; [| now apply IH].
  intros Hin. apply Hnotin.
  apply in_map_iff in Hin as (r & Hr & Hin). apply filter_In in Hin as [Hin _].
  rewrite <- Hr. now apply in_map.
Qed.

(** With [id] a primary key, a project awaiting review is found in the
    list the dashboard loads, under its own id. *)
Lemma find_in_listPendingProjects d p :
  NoDup (map ProjectRow.id (projects d)) ->
  In p (projects d) ->
  awaiting_review p = true ->
  find (fun q => Project.id q =? ProjectRow.id p) (listPendingProjects d) =
  Some (with_submitter d p).
Proof.
  intros Hnd Hin Hp.
  assert (Hperm := order_ascending_perm submitted_leb (filter awaiting_review (projects d))).
  change (ProjectRow.id p) with (Project.id (with_submitter d p)).
  apply find_by_key.
  - unfold listPendingProjects. rewrite map_map. simpl.
    change (fun x => Project.id (with_submitter d x)) with ProjectRow.id.
    eapply Permutation_NoDup; [apply Permutation_map; exact Hperm |].
    now apply NoDup_map_filter.
  - unfold listPendingProjects. apply in_map.
    eapply Permutation_in; [exact Hperm |]. now apply filter_In.
Qed.

Lemma succeed_1 w : succeed 1 w -> answer w = None.
Proof. intros H. now apply succeed_next in H. Qed.

Lemma succeed_2 w : succeed 2 w -> answer w = None /\ answer (tick w) = None.
Proof.
  intros H. apply succeed_next in H as [H1 H].
  split; [exact H1 | now apply succeed_1].
Qed.

Lemma succeed_3 w :
  succeed 3 w ->
  answer w = None /\ answer (tick w) = None /\ answer (tick (tick w)) = None.
Proof.
  intros H. apply succeed_next in H as [H1 H].
  split; [exact H1 | now apply succeed_2].
Qed.

(** * The statistics *)

Local Open Scope list_scope.

Lemma count_status_map s (l : list ProjectRow.t) :
  count_status s (map ProjectRow.status l) =
  length (filter (fun r => ProjectRow.status r =? s) l).
Proof.
  unfold count_status. induction l as [| a l IH]; simpl; [reflexivity |].
  destruct (ProjectRow.status a =? s); simpl; now rewrite IH.
Qed.

Lemma length_listPendingProjects d :
  length (listPendingProjects d) = length (filter awaiting_review (projects d)).
Proof.
  unfold listPendingProjects. rewrite length_map.
  symmetry. apply Permutation_length, order_ascending_perm.
Qed.

(** Whatever the gateway answers, the fourth counter is the sum of the
    second and the third. *)
Lemma totalReviewed_is_sum w :
  let st := stats (ui (exec fetchVerifierData w)) in
  totalReviewed st = verifiedProjects st + rejectedProjects st.
Proof.
  unfold exec. rewrite run_fetchVerifierData. reflexivity.
Qed.

(** C2, as the code has it. When the three reads of a refresh succeed,
    [pendingReviews] is the number of all projects with status [pending] or
    [under_review], whether or not a verifier is recorded on them;
    [verifiedProjects] and [rejectedProjects] count the projects with that
    status among those with a non-null [verifier_id]; [totalReviewed] is
    the sum of these two. *)
Theorem computeStats_counters (w : World) :
  succeed 3 w ->
  let st := stats (ui (exec fetchVerifierData w)) in
  let reviewed := filter has_verifier (projects (db w)) in
  pendingReviews st = length (filter awaiting_review (projects (db w)))
  /\ verifiedProjects st =
     length (filter (fun r => ProjectRow.status r =? "verified") reviewed)
  /\ rejectedProjects st =
     length (filter (fun r => ProjectRow.status r =? "rejected") reviewed)
  /\ totalReviewed st = verifiedProjects st + rejectedProjects st.
Proof.
  intros H st reviewed.
  split; [| split; [| split]]; [| | | apply totalReviewed_is_sum].
  all: apply succeed_3 in H as (H1 & H2 & H3).
  all: normalise_in H1; normalise_in H2; normalise_in H3.
  all: subst st reviewed; unfold exec; rewrite run_fetchVerifierData.
  all: cbv zeta; normalise;
    cbn [stats pendingReviews verifiedProjects rejectedProjects totalReviewed].
  - rewrite H1. simpl. apply length_listPendingProjects.
  - rewrite H3. simpl. apply count_status_map.
  - rewrite H3. simpl. apply count_status_map.
Qed.

Lemma computeStats_counters_witness :
  succeed 3 (Sample.mounted Sample.reviewer Sample.store [])
  /\ stats (ui (exec fetchVerifierData
                     (Sample.mounted Sample.reviewer Sample.store []))) =
     mkStats 2 1 0 1.
Proof.
  assert (H : succeed 3 (Sample.mounted Sample.reviewer Sample.store []))
    by (vm_compute; constructor).
  split; [exact H |].
  destruct (computeStats_counters _ H) as (Hp & Hv & Hr & Ht).
  destruct (stats _) as [pending verified rejected total].
  cbn [pendingReviews verifiedProjects rejectedProjects totalReviewed] in *.
  rewrite Ht, Hp, Hv, Hr. reflexivity.
Defined.

(** C2, as stated, fails: two projects of the sample store await review
    and no verifier is recorded on either, so among the rows with a
    non-null [verifier_id] none is pending or under review; yet
    [pendingReviews] is 2. *)
Lemma computeStats_pendingReviews_not_restricted :
  pendingReviews
    (stats (ui (exec fetchVerifierData
                     (Sample.mounted Sample.reviewer Sample.store [])))) = 2
  /\ length (filter awaiting_review
               (filter has_verifier (projects Sample.store))) = 0
  /\ pendingReviews
       (stats (ui (exec fetchVerifierData
                        (Sample.mounted Sample.reviewer Sample.store [])))) <>
     length (filter awaiting_review
               (filter has_verifier (projects Sample.store))).
Proof.
  vm_compute. repeat split. discriminate.
Qed.

(** * Deciding a project *)

(** On a page that shows the list as this store gives it.  Let [id] be
    the primary key of [projects], [p] a project with status [pending] or
    [under_review], and let the dashboard of verifier [v] hold the list
    loaded from this very store.  If the update and the credit insert go
    through, approving [p] leaves it [verified], with [verifier_id = v],
    the notes typed in, and [verified_at] the time of the decision, its
    other columns untouched; and exactly one credit is added:
    [estimated_credits] of [p], owned by its submitter, [active]. *)
Theorem verify_pending_project (w : World) (p : ProjectRow.t) (v : ProfileRow.t) :
  NoDup (map ProjectRow.id (projects (db w))) ->
  In p (projects (db w)) ->
  ProjectRow.status p = "pending" \/ ProjectRow.status p = "under_review" ->
  pendingProjects (ui w) = listPendingProjects (db w) ->
  profile (ui w) = Some v ->
  succeed 2 w ->
  let w' := exec (handleVerifyProject (ProjectRow.id p) Review.verified) w in
  find_project (db w') (ProjectRow.id p) =
    Some (ProjectRow.mk (ProjectRow.id p) (ProjectRow.title p)
            (ProjectRow.location p) (ProjectRow.area_hectares p)
            (ProjectRow.description p)
            "verified"
            (ProjectRow.estimated_credits p) (ProjectRow.submitted_at p)
            (ProjectRow.submitter_id p)
            (Some (ProfileRow.id v))
            (Some (verificationNotes (ui w)))
            (Some (clock w)))
  /\ carbon_credits (db w') =
     carbon_credits (db w) ++
     [CarbonCreditRow.mk (ProjectRow.id p) (ProjectRow.submitter_id p)
        (ProjectRow.estimated_credits p) "active"].
Proof.
  intros Hkey Hin Hstatus Hlist Hv Hok w'.
  apply succeed_2 in Hok as [H1 H2].
  assert (Hfound : find (fun q => Project.id q =? ProjectRow.id p) (pendingProjects (ui w))
                   = Some (with_submitter (db w) p)).
  { rewrite Hlist. apply find_in_listPendingProjects; trivial.
    now apply awaiting_review_iff. }
  destruct (verify_credit_issued w _ _ H1 Hfound H2) as (Hdb & _ & _).
  fold w' in Hdb. rewrite Hdb. unfold find_project. cbn [projects carbon_credits].
  split; [| reflexivity].
  rewrite find_update_where_id by reflexivity.
  fold (find_project (db w) (ProjectRow.id p)).
  unfold find_project. rewrite find_by_key by trivial.
  unfold review_patch. rewrite Hv. reflexivity.
Qed.

Lemma verify_pending_project_witness :
  find_project
    (db (exec (handleVerifyProject "P1" Review.verified)
              (Sample.loaded Sample.reviewer Sample.store [])))
    "P1" =
    Some (ProjectRow.mk "P1" "Mangroves" "Sundarbans" 40 "Replanting" "verified"
            500 1000%Z "U1" (Some "V1") (Some "") (Some 2000%Z))
  /\ carbon_credits
       (db (exec (handleVerifyProject "P1" Review.verified)
                 (Sample.loaded Sample.reviewer Sample.store []))) =
     [CarbonCreditRow.mk "P1" "U1" 500 "active"].
Proof.
  apply (verify_pending_project
           (Sample.loaded Sample.reviewer Sample.store [])
           Sample.project Sample.reviewer).
  - vm_compute. repeat constructor; simpl; intuition discriminate.
  - vm_compute. auto.
  - left. reflexivity.
  - reflexivity.
  - reflexivity.
  - vm_compute. constructor.
Defined.

(** C1, as the code has it.  Let [p] be the project that its id
    identifies in the store, with status [pending] or [under_review], and
    let the list the dashboard holds have an entry under that id.  If the
    update and the credit insert go through, approving it for verifier [v]
    leaves [p] [verified], with [verifier_id = v], the notes typed in, and
    [verified_at] the time of the decision, its other columns untouched;
    and exactly one credit is added, [active], whose amount and owner are
    the [estimated_credits] and the [submitter_id] of the entry listed:
    those the project had when the list was loaded, and the project's own
    where the entry is still the row of the store. *)
Theorem verify_listed_project (w : World) (p : ProjectRow.t) (entry : Project.t)
    (v : ProfileRow.t) :
  find_project (db w) (ProjectRow.id p) = Some p ->
  ProjectRow.status p = "pending" \/ ProjectRow.status p = "under_review" ->
  find (fun q => Project.id q =? ProjectRow.id p) (pendingProjects (ui w))
    = Some entry ->
  profile (ui w) = Some v ->
  succeed 2 w ->
  let w' := exec (handleVerifyProject (ProjectRow.id p) Review.verified) w in
  find_project (db w') (ProjectRow.id p) =
    Some (ProjectRow.mk (ProjectRow.id p) (ProjectRow.title p)
            (ProjectRow.location p) (ProjectRow.area_hectares p)
            (ProjectRow.description p)
            "verified"
            (ProjectRow.estimated_credits p) (ProjectRow.submitted_at p)
            (ProjectRow.submitter_id p)
            (Some (ProfileRow.id v))
            (Some (verificationNotes (ui w)))
            (Some (clock w)))
  /\ carbon_credits (db w') =
     carbon_credits (db w) ++
     [CarbonCreditRow.mk (ProjectRow.id p) (Project.submitter_id entry)
        (Project.estimated_credits entry) "active"]
  /\ (Project.row entry = p ->
      carbon_credits (db w') =
      carbon_credits (db w) ++
      [CarbonCreditRow.mk (ProjectRow.id p) (ProjectRow.submitter_id p)
         (ProjectRow.estimated_credits p) "active"]).
Proof.
  intros Hp _ Hfound Hv Hok w'.
  apply succeed_2 in Hok as [H1 H2].
  destruct (verify_credit_issued w _ entry H1 Hfound H2) as (Hdb & _ & _).
  fold w' in Hdb. rewrite Hdb. unfold find_project in *.
  cbn [projects carbon_credits].
  split; [| split].
  - rewrite find_update_where_id by reflexivity. rewrite Hp.
    unfold review_patch. rewrite Hv. reflexivity.
  - reflexivity.
  - intros <-. reflexivity.
Qed.

Lemma verify_listed_project_witness :
  find_project
    (db (exec (handleVerifyProject "P1" Review.verified) Stale.page)) "P1" =
    Some (ProjectRow.mk "P1" "Mangroves" "Sundarbans" 40 "Replanting" "verified"
            700 1000%Z "V2" (Some "V1") (Some "") (Some 2000%Z))
  /\ carbon_credits
       (db (exec (handleVerifyProject "P1" Review.verified) Stale.page)) =
     [CarbonCreditRow.mk "P1" "U1" 500 "active"].
Proof.
  destruct (verify_listed_project Stale.page Stale.edited_project
              (with_submitter Sample.store Sample.project) Sample.reviewer)
    as (Hrow & Hcredit & _).
  - reflexivity.
  - left. reflexivity.
  - reflexivity.
  - reflexivity.
  - vm_compute. constructor.
  - split; [exact Hrow | exact Hcredit].
Defined.

(** C1, as stated, fails.  On the stale page P1 is a project of the store
    with status [pending], amount 700 and submitter V2; the page offers
    the approve button for it and both writes go through.  The credit
    issued carries amount 500 and owner U1, those of the entry as loaded,
    not the project's.  And on a page that lists nothing, approving the
    pending P1 of the sample store issues no credit at all. *)
Lemma verify_pending_project_credit_from_stale_entry :
  (find_project (db Stale.page) "P1" = Some Stale.edited_project
   /\ ProjectRow.status Stale.edited_project = "pending"
   /\ ProjectRow.estimated_credits Stale.edited_project = 700%Z
   /\ ProjectRow.submitter_id Stale.edited_project = "V2"
   /\ In (VerifyApprove "P1") (render (ui Stale.page))
   /\ carbon_credits
        (db (exec (handleVerifyProject "P1" Review.verified) Stale.page)) =
      [CarbonCreditRow.mk "P1" "U1" 500 "active"]
   /\ carbon_credits
        (db (exec (handleVerifyProject "P1" Review.verified) Stale.page)) <>
      carbon_credits (db Stale.page) ++
      [CarbonCreditRow.mk "P1"
         (ProjectRow.submitter_id Stale.edited_project)
         (ProjectRow.estimated_credits Stale.edited_project) "active"])
  /\
  (find_project Sample.store "P1" = Some Sample.project
   /\ ProjectRow.status Sample.project = "pending"
   /\ carbon_credits
        (db (exec (handleVerifyProject "P1" Review.verified)
                  (Sample.mounted Sample.reviewer Sample.store []))) = []).
Proof.
  split.
  - repeat (split; [vm_compute; auto |]).
    vm_compute. discriminate.
  - repeat split.
Qed.

(** C5. If the project update is refused, the function ends in its catch
    arm: the error is shown, and the store is what it was, so no credit, no
    certificate and no change to any row; the component state is untouched
    as well. *)
Theorem verify_update_failure_changes_nothing (w : World) (projectId : Uuid)
    (status : Review.status) (message : string) :
  fails_at 0 message w ->
  let w' := exec (handleVerifyProject projectId status) w in
  db w' = db w
  /\ ui w' = ui w
  /\ toasts w' = toasts w ++ [mkToast "Error" message (Some "destructive")]
  /\ console w' = console w.
Proof.
  intros H w'. apply fails_at_now in H.
  subst w'. unfold exec. rewrite (verify_update_refused w projectId status message H).
  repeat split.
Qed.

Lemma verify_update_failure_changes_nothing_witness :
  db (exec (handleVerifyProject "P1" Review.verified)
           (Sample.loaded Sample.reviewer Sample.store
              [failed "permission denied"])) = Sample.store
  /\ carbon_credits
       (db (exec (handleVerifyProject "P1" Review.verified)
                 (Sample.loaded Sample.reviewer Sample.store
                    [failed "permission denied"]))) = []
  /\ toasts (exec (handleVerifyProject "P1" Review.verified)
                  (Sample.loaded Sample.reviewer Sample.store
                     [failed "permission denied"])) =
     [mkToast "Error" "permission denied" (Some "destructive")].
Proof.
  destruct (verify_update_failure_changes_nothing
              (Sample.loaded Sample.reviewer Sample.store
                 [failed "permission denied"])
              "P1" Review.verified "permission denied") as (Hdb & _ & Ht & _).
  - reflexivity.
  - rewrite Hdb, Ht. repeat split.
Defined.

(** C6. Let [projectId] identify project [p], with status [pending] or
    [under_review].  If the update goes through, rejecting it for verifier
    [v] leaves it [rejected], with [verifier_id = v], the notes typed in and
    [verified_at] null, and adds no credit and no certificate. *)
Theorem reject_pending_project (w : World) (p : ProjectRow.t) (v : ProfileRow.t) :
  find_project (db w) (ProjectRow.id p) = Some p ->
  ProjectRow.status p = "pending" \/ ProjectRow.status p = "under_review" ->
  profile (ui w) = Some v ->
  succeed 1 w ->
  let w' := exec (handleVerifyProject (ProjectRow.id p) Review.rejected) w in
  find_project (db w') (ProjectRow.id p) =
    Some (ProjectRow.mk (ProjectRow.id p) (ProjectRow.title p)
            (ProjectRow.location p) (ProjectRow.area_hectares p)
            (ProjectRow.description p)
            "rejected"
            (ProjectRow.estimated_credits p) (ProjectRow.submitted_at p)
            (ProjectRow.submitter_id p)
            (Some (ProfileRow.id v))
            (Some (verificationNotes (ui w)))
            None)
  /\ carbon_credits (db w') = carbon_credits (db w)
  /\ certificates (db w') = certificates (db w).
Proof.
  intros Hp _ Hv Hok w'. apply succeed_1 in Hok.
  destruct (verify_update_only w (ProjectRow.id p) Review.rejected Hok) as (Hdb & _ & _);
    [now left |].
  fold w' in Hdb. rewrite Hdb. cbn [carbon_credits certificates].
  split; [| split; reflexivity].
  unfold find_project in *. cbn [projects].
  rewrite find_update_where_id by reflexivity. rewrite Hp.
  unfold review_patch. rewrite Hv. reflexivity.
Qed.

Lemma reject_pending_project_witness :
  find_project
    (db (exec (handleVerifyProject "P2" Review.rejected)
              (Sample.loaded Sample.reviewer Sample.store [])))
    "P2" =
    Some (ProjectRow.mk "P2" "Seagrass" "Chilika" 12 "Meadow" "rejected"
            120 900%Z "U1" (Some "V1") (Some "") None)
  /\ carbon_credits
       (db (exec (handleVerifyProject "P2" Review.rejected)
                 (Sample.loaded Sample.reviewer Sample.store []))) = []
  /\ certificates
       (db (exec (handleVerifyProject "P2" Review.rejected)
                 (Sample.loaded Sample.reviewer Sample.store []))) = [].
Proof.
  apply (reject_pending_project
           (Sample.loaded Sample.reviewer Sample.store [])
           Sample.older_project Sample.reviewer).
  - reflexivity.
  - right. reflexivity.
  - reflexivity.
  - vm_compute. constructor.
Defined.

(** C10. If the list the dashboard holds has no project with id
    [projectId], approving [projectId] still updates the row of that id in
    the store to [verified] (when the update goes through), but adds no
    credit and no certificate; the toast shown is the success toast. *)
Theorem verify_project_not_listed (w : World) (projectId : Uuid) (r : ProjectRow.t) :
  find (fun p => Project.id p =? projectId) (pendingProjects (ui w)) = None ->
  find_project (db w) projectId = Some r ->
  succeed 1 w ->
  let w' := exec (handleVerifyProject projectId Review.verified) w in
  option_map ProjectRow.status (find_project (db w') projectId) = Some "verified"
  /\ option_map ProjectRow.verified_at (find_project (db w') projectId)
     = Some (Some (clock w))
  /\ carbon_credits (db w') = carbon_credits (db w)
  /\ certificates (db w') = certificates (db w)
  /\ toasts w' =
     toasts w ++
     [mkToast "Success"
        "Project verified successfully and certificate auto-generated" None].
Proof.
  intros Hlist Hr Hok w'. apply succeed_1 in Hok.
  destruct (verify_update_only w projectId Review.verified Hok) as (Hdb & Ht & _);
    [now right |].
  fold w' in Hdb, Ht. rewrite Hdb, Ht. cbn [carbon_credits certificates].
  unfold find_project in *. cbn [projects].
  rewrite find_update_where_id by reflexivity. rewrite Hr.
  repeat split.
Qed.

Lemma verify_project_not_listed_witness :
  option_map ProjectRow.status
    (find_project
       (db (exec (handleVerifyProject "P1" Review.verified)
                 (Sample.mounted Sample.reviewer Sample.store [])))
       "P1") = Some "verified"
  /\ carbon_credits
       (db (exec (handleVerifyProject "P1" Review.verified)
                 (Sample.mounted Sample.reviewer Sample.store []))) = []
  /\ certificates
       (db (exec (handleVerifyProject "P1" Review.verified)
                 (Sample.mounted Sample.reviewer Sample.store []))) = []
  /\ toasts (exec (handleVerifyProject "P1" Review.verified)
                  (Sample.mounted Sample.reviewer Sample.store [])) =
     [mkToast "Success"
        "Project verified successfully and certificate auto-generated" None].
Proof.
  destruct (verify_project_not_listed
              (Sample.mounted Sample.reviewer Sample.store [])
              "P1" Sample.project) as (H1 & _ & H2 & H3 & H4).
  - reflexivity.
  - reflexivity.
  - vm_compute. constructor.
  - repeat split; assumption.
Defined.

(** C3. Let the list the dashboard holds have a project with id
    [projectId].  If, approving it, the certificate insert is refused after
    the update and the credit insert went through, the refusal is written
    to the console and nothing else: the credit stays, no certificate is
    added, and the toast shown is the success toast.  If instead the credit
    insert is refused after the update went through, the toast shown is
    the error, and no success toast; the project stays updated. *)
Theorem verify_partial_failures (w : World) (projectId : Uuid)
    (project : Project.t) (message : string) :
  find (fun p => Project.id p =? projectId) (pendingProjects (ui w)) = Some project ->
  let w' := exec (handleVerifyProject projectId Review.verified) w in
  let reviewed :=
    update_where_id ProjectRow.id
      (ProjectRow.update (review_patch (ui w) Review.verified (clock w)))
      projectId (projects (db w)) in
  (succeed 2 w -> fails_at 2 message w ->
     toasts w' =
       toasts w ++
       [mkToast "Success"
          "Project verified successfully and certificate auto-generated" None]
     /\ console w' = console w ++ [("Error auto-generating certificate:", message)]
     /\ projects (db w') = reviewed
     /\ carbon_credits (db w') =
        carbon_credits (db w) ++
        [CarbonCreditRow.mk projectId (Project.submitter_id project)
           (Project.estimated_credits project) "active"]
     /\ certificates (db w') = certificates (db w))
  /\
  (succeed 1 w -> fails_at 1 message w ->
     toasts w' = toasts w ++ [mkToast "Error" message (Some "destructive")]
     /\ console w' = console w
     /\ projects (db w') = reviewed
     /\ carbon_credits (db w') = carbon_credits (db w)
     /\ certificates (db w') = certificates (db w)).
Proof.
  intros Hfound w' reviewed. split.
  - intros Hok Hfail. apply succeed_2 in Hok as [H1 H2].
    do 2 apply fails_at_next in Hfail. apply fails_at_now in Hfail.
    destruct (verify_credit_issued w projectId project H1 Hfound H2) as (Hdb & Ht & Hc).
    fold w' in Hdb, Ht, Hc. rewrite Hdb, Ht, Hc, Hfail.
    repeat split.
  - intros Hok Hfail. apply succeed_1 in Hok.
    apply fails_at_next, fails_at_now in Hfail.
    destruct (verify_credit_refused w projectId project Hok Hfound message Hfail)
      as (Hdb & Ht & Hc & _).
    fold w' in Hdb, Ht, Hc. rewrite Hdb, Ht, Hc.
    repeat split.
Qed.

Lemma verify_partial_failures_witness :
  (toasts (exec (handleVerifyProject "P1" Review.verified)
                (Sample.loaded Sample.reviewer Sample.store
                   [ok; ok; failed "row-level security"])) =
     [mkToast "Success"
        "Project verified successfully and certificate auto-generated" None]
   /\ console (exec (handleVerifyProject "P1" Review.verified)
                    (Sample.loaded Sample.reviewer Sample.store
                       [ok; ok; failed "row-level security"])) =
      [("Error auto-generating certificate:", "row-level security")])
  /\
  (toasts (exec (handleVerifyProject "P1" Review.verified)
                (Sample.loaded Sample.reviewer Sample.store
                   [ok; failed "row-level security"])) =
     [mkToast "Error" "row-level security" (Some "destructive")]
   /\ carbon_credits
        (db (exec (handleVerifyProject "P1" Review.verified)
                  (Sample.loaded Sample.reviewer Sample.store
                     [ok; failed "row-level security"]))) = []).
Proof.
  split.
  - destruct (verify_partial_failures
                (Sample.loaded Sample.reviewer Sample.store
                   [ok; ok; failed "row-level security"])
                "P1" (with_submitter Sample.store Sample.project)
                "row-level security") as [H _].
    + reflexivity.
    + destruct H as (Ht & Hc & _).
      * vm_compute. repeat constructor.
      * reflexivity.
      * split; assumption.
  - destruct (verify_partial_failures
                (Sample.loaded Sample.reviewer Sample.store
                   [ok; failed "row-level security"])
                "P1" (with_submitter Sample.store Sample.project)
                "row-level security") as [_ H].
    + reflexivity.
    + destruct H as (Ht & _ & _ & Hc & _).
      * vm_compute. repeat constructor.
      * reflexivity.
      * split; assumption.
Defined.

(** C8. Approving is not idempotent.  On the sample store, verifier V1
    approves P1 from a dashboard that lists it: one credit for P1.  The
    approval is then issued once more from a render that still lists P1
    (the button clicked again before the refresh has repainted, or the
    dashboard of a second verifier loaded beforehand): the store now holds
    two credits for the one project P1. *)
Theorem handleVerifyProject_not_idempotent :
  exists (w : World) (projectId : Uuid),
    let once := exec (handleVerifyProject projectId Review.verified) w in
    let twice := exec (handleVerifyProject projectId Review.verified)
                      (with_ui (ui w) once) in
    length (filter (fun p => ProjectRow.id p =? projectId) (projects (db w))) = 1
    /\ length (credits_of projectId (db w)) = 0
    /\ length (credits_of projectId (db once)) = 1
    /\ length (credits_of projectId (db twice)) = 2.
Proof.
  exists (Sample.loaded Sample.reviewer Sample.store []), "P1".
  vm_compute. repeat split.
Qed.

(** In contrast, once the refresh that ends the first approval has
    settled with its reads answered, the list no longer holds the project:
    a second approval from that render updates the row again and adds no
    credit. *)
Example second_approval_after_refresh :
  length (credits_of "P1"
            (db (exec (handleVerifyProject "P1" Review.verified)
                      (exec (handleVerifyProject "P1" Review.verified)
                            (Sample.loaded Sample.reviewer Sample.store []))))) = 1.
Proof. reflexivity. Qed.

(** * Deciding a certificate request *)



(** C4. Let [requestId] identify request [r].  If, approving it, the
    certificate insert is refused after the update went through, the
    function ends in its catch arm: the toast shown is the error (its
    message, or a fixed text when the message is empty), no certificate is
    added, and the request stays [approved] in the store. *)
Theorem approve_request_certificate_failure (w : World)
    (r : CertificateRequestRow.t) (projectId : Uuid) (notes : option string)
    (message : string) :
  find_request (db w) (CertificateRequestRow.id r) = Some r ->
  succeed 1 w ->
  fails_at 1 message w ->
  let w' := exec (handleCertificateRequest (CertificateRequestRow.id r)
                    projectId Processing.approved notes) w in
  toasts w' =
    toasts w ++
    [mkToast "Error"
       (if message =? "" then "Failed to process certificate request" else message)
       (Some "destructive")]
  /\ certificates (db w') = certificates (db w)
  /\ option_map CertificateRequestRow.status
       (find_request (db w') (CertificateRequestRow.id r))
     = Some (Some "approved").
Proof.
  intros Hr Hok Hfail w'. apply succeed_1 in Hok.
  apply fails_at_next, fails_at_now in Hfail.
  destruct (request_certificate_refused w (CertificateRequestRow.id r) projectId
              notes message Hok Hfail) as (Hdb & Ht & _).
  fold w' in Hdb, Ht. rewrite Hdb, Ht. unfold find_request in *.
  cbn [certificate_requests certificates].
  rewrite find_update_where_id by reflexivity. rewrite Hr.
  repeat split.
Qed.

Lemma approve_request_certificate_failure_witness :
  toasts (exec (handleCertificateRequest "R1" "P3" Processing.approved None)
               (Sample.loaded Sample.reviewer Sample.store
                  [ok; failed "duplicate key"])) =
    [mkToast "Error" "duplicate key" (Some "destructive")]
  /\ certificates
       (db (exec (handleCertificateRequest "R1" "P3" Processing.approved None)
                 (Sample.loaded Sample.reviewer Sample.store
                    [ok; failed "duplicate key"]))) = []
  /\ option_map CertificateRequestRow.status
       (find_request
          (db (exec (handleCertificateRequest "R1" "P3" Processing.approved None)
                    (Sample.loaded Sample.reviewer Sample.store
                       [ok; failed "duplicate key"])))
          "R1")
     = Some (Some "approved").
Proof.
  apply (approve_request_certificate_failure
           (Sample.loaded Sample.reviewer Sample.store
              [ok; failed "duplicate key"])
           Sample.request "P3" None "duplicate key").
  - reflexivity.
  - vm_compute. constructor; [reflexivity | constructor].
  - reflexivity.
Defined.

(** * Beyond the decisions: the lists, the refresh, the page *)

(** ** [listPendingRequests] *)

Lemma requested_leb_iff a b : requested_leb a b = true <-> requested_before a b.
Proof.
  unfold requested_leb, requested_before.
  destruct (CertificateRequestRow.requested_at a), (CertificateRequestRow.requested_at b);
    rewrite ?Z.leb_le; intuition discriminate.
Qed.

Lemma requested_leb_total a b : requested_leb a b = true \/ requested_leb b a = true.
Proof.
  unfold requested_leb.
  destruct (CertificateRequestRow.requested_at a), (CertificateRequestRow.requested_at b);
    rewrite ?Z.leb_le; auto; lia.
Qed.

Lemma requested_leb_trans a b c :
  requested_leb a b = true -> requested_leb b c = true -> requested_leb a c = true.
Proof.
  unfold requested_leb.
  destruct (CertificateRequestRow.requested_at a), (CertificateRequestRow.requested_at b),
    (CertificateRequestRow.requested_at c);
    rewrite ?Z.leb_le; auto; try discriminate; lia.
Qed.

Lemma request_pending_iff r :
  request_pending r = true <-> CertificateRequestRow.status r = Some "pending".
Proof.
  unfold request_pending. destruct (CertificateRequestRow.status r) as [s |].
  - rewrite String.eqb_eq. split; congruence.
  - split; discriminate.
Qed.

Lemma rows_of_listPendingRequests d :
  map CertificateRequest.row (listPendingRequests d) =
  order_ascending requested_leb (filter request_pending (certificate_requests d)).
Proof.
  unfold listPendingRequests. rewrite map_map; simpl. apply map_id.
Qed.

(** X1. The certificate-requests query returns exactly the rows whose status
    is [pending] (a row with a [NULL] status is not one), each once, in
    ascending order of [requested_at] with the rows that have none last. *)
Theorem listPendingRequests_exact_and_ordered (d : Database) :
  (forall r, In r (map CertificateRequest.row (listPendingRequests d)) <->
             In r (certificate_requests d) /\
             CertificateRequestRow.status r = Some "pending")
  /\ Permutation (map CertificateRequest.row (listPendingRequests d))
                 (filter request_pending (certificate_requests d))
  /\ StronglySorted
       (fun a b => requested_before (CertificateRequest.row a) (CertificateRequest.row b))
       (listPendingRequests d).
Proof.
  assert (HP : Permutation (map CertificateRequest.row (listPendingRequests d))
                           (filter request_pending (certificate_requests d))).
  { rewrite rows_of_listPendingRequests. symmetry. apply order_ascending_perm. }
  split; [| split; [exact HP |]].
  - intros r. rewrite <- request_pending_iff, <- filter_In.
    split; apply Permutation_in; [exact HP | symmetry; exact HP].
  - unfold listPendingRequests.
    apply StronglySorted_map with (P := fun a b => requested_leb a b = true).
    + intros a b H. now apply requested_leb_iff.
    + apply order_ascending_sorted;
        [apply requested_leb_total | apply requested_leb_trans].
Qed.



(** ** The refresh, whatever the gateway answers *)

Lemma ui_refreshed w :
  ui (refreshed w) =
  let pendingData := data_of (answer w) (listPendingProjects (db w)) in
  let certificateRequestsData :=
    data_of (answer (tick w)) (listPendingRequests (db w)) in
  let allProjects := data_of (answer (tick (tick w))) (reviewedStatuses (db w)) in
  let verifiedCount :=
    or_default (option_map (count_status "verified") allProjects) 0 in
  let rejectedCount :=
    or_default (option_map (count_status "rejected") allProjects) 0 in
  mkSession (profile (ui w))
    (or_default pendingData [])
    (selectedProject (ui w))
    (verificationNotes (ui w))
    (or_default certificateRequestsData [])
    (mkStats (or_default (option_map (@length _) pendingData) 0)
             verifiedCount rejectedCount (verifiedCount + rejectedCount))
    false.
Proof.
  unfold refreshed, exec. rewrite run_fetchVerifierData. reflexivity.
Qed.

Lemma script_refreshed w : script (refreshed w) = skipn 3 (script w).
Proof.
  unfold refreshed, exec. rewrite run_fetchVerifierData. cbv zeta. normalise.
  destruct (script w) as [| r1 [| r2 [| r3 rest]]]; reflexivity.
Qed.

(** X3. A refresh is silent and leaves the store alone: whichever of its
    three reads fail, it shows no toast and logs nothing, writes nothing to
    the store, and keeps the profile, the selection and the notes typed in;
    it uses up three replies of the gateway and ends with [loading] off. *)
Theorem fetchVerifierData_silent (w : World) :
  let w' := exec fetchVerifierData w in
  db w' = db w
  /\ toasts w' = toasts w
  /\ console w' = console w
  /\ script w' = skipn 3 (script w)
  /\ profile (ui w') = profile (ui w)
  /\ selectedProject (ui w') = selectedProject (ui w)
  /\ verificationNotes (ui w') = verificationNotes (ui w)
  /\ loading (ui w') = false.
Proof.
  intros w'. subst w'. fold (refreshed w).
  rewrite db_refreshed, toasts_refreshed, console_refreshed, script_refreshed,
    ui_refreshed.
  repeat split.
Qed.

(** X4. The refresh fails open.  A refused first read empties the list of
    projects and sets [pendingReviews] to 0; a refused second read empties
    the list of requests; a refused third read sets the three review
    counters to 0.  In none of these cases is anything shown to the user. *)
Theorem fetchVerifierData_fails_open (w : World) (message : string) :
  let s := ui (exec fetchVerifierData w) in
  (fails_at 0 message w ->
     pendingProjects s = [] /\ pendingReviews (stats s) = 0)
  /\ (fails_at 1 message w -> certificateRequests s = [])
  /\ (fails_at 2 message w ->
        verifiedProjects (stats s) = 0
        /\ rejectedProjects (stats s) = 0
        /\ totalReviewed (stats s) = 0).
Proof.
  intros s. subst s. fold (refreshed w). rewrite ui_refreshed. cbv zeta.
  cbn [pendingProjects certificateRequests stats pendingReviews verifiedProjects
       rejectedProjects totalReviewed].
  split; [| split].
  - intros H. apply fails_at_now in H. rewrite H. split; reflexivity.
  - intros H. apply fails_at_next, fails_at_now in H. rewrite H. reflexivity.
  - intros H. do 2 apply fails_at_next in H. apply fails_at_now in H.
    rewrite H. repeat split.
Qed.

Lemma fetchVerifierData_fails_open_witness :
  (pendingProjects
     (ui (exec fetchVerifierData
               (Sample.mounted Sample.reviewer Sample.store [failed "timeout"]))) = []
   /\ pendingReviews
        (stats (ui (exec fetchVerifierData
                         (Sample.mounted Sample.reviewer Sample.store
                            [failed "timeout"])))) = 0)
  /\ certificateRequests
       (ui (exec fetchVerifierData
                 (Sample.mounted Sample.reviewer Sample.store
                    [ok; failed "timeout"]))) = []
  /\ totalReviewed
       (stats (ui (exec fetchVerifierData
                        (Sample.mounted Sample.reviewer Sample.store
                           [ok; ok; failed "timeout"])))) = 0.
Proof.
  split; [| split].
  - apply (fetchVerifierData_fails_open
             (Sample.mounted Sample.reviewer Sample.store [failed "timeout"])
             "timeout").
    reflexivity.
  - apply (fetchVerifierData_fails_open
             (Sample.mounted Sample.reviewer Sample.store [ok; failed "timeout"])
             "timeout").
    reflexivity.
  - apply (fetchVerifierData_fails_open
             (Sample.mounted Sample.reviewer Sample.store [ok; ok; failed "timeout"])
             "timeout").
    reflexivity.
Defined.

(** What a refresh leaves in the two lists. *)
Lemma pendingProjects_refreshed w :
  pendingProjects (ui (refreshed w)) = []
  \/ pendingProjects (ui (refreshed w)) = listPendingProjects (db w).
Proof.
  rewrite ui_refreshed. cbv zeta. cbn [pendingProjects].
  destruct (answer w); simpl; auto.
Qed.

Lemma certificateRequests_refreshed w :
  certificateRequests (ui (refreshed w)) = []
  \/ certificateRequests (ui (refreshed w)) = listPendingRequests (db w).
Proof.
  rewrite ui_refreshed. cbv zeta. cbn [certificateRequests].
  destruct (answer (tick w)); simpl; auto.
Qed.

Lemma listed_project_awaits_review d p :
  In p (listPendingProjects d) ->
  In (Project.row p) (projects d) /\ awaiting_review (Project.row p) = true.
Proof.
  intros H. apply (in_map Project.row) in H.
  rewrite rows_of_listPendingProjects in H.
  eapply Permutation_in in H; [| symmetry; apply order_ascending_perm].
  now apply filter_In in H.
Qed.

Lemma listed_request_is_pending d r :
  In r (listPendingRequests d) ->
  In (CertificateRequest.row r) (certificate_requests d)
  /\ request_pending (CertificateRequest.row r) = true.
Proof.
  intros H. apply (in_map CertificateRequest.row) in H.
  rewrite rows_of_listPendingRequests in H.
  eapply Permutation_in in H; [| symmetry; apply order_ascending_perm].
  now apply filter_In in H.
Qed.

(** X5. After a refresh the first card and the list agree, whatever the
    gateway answered: [pendingReviews] is the number of projects listed,
    every project listed has status [pending] or [under_review], and every
    request listed has status [pending]. *)
Theorem fetchVerifierData_lists_consistent (w : World) :
  let s := ui (exec fetchVerifierData w) in
  pendingReviews (stats s) = length (pendingProjects s)
  /\ Forall (fun p => Project.status p = "pending" \/ Project.status p = "under_review")
            (pendingProjects s)
  /\ Forall (fun r => CertificateRequestRow.status (CertificateRequest.row r)
                      = Some "pending")
            (certificateRequests s).
Proof.
  intros s. subst s. fold (refreshed w). split; [| split].
  - rewrite ui_refreshed. cbv zeta. cbn [pendingProjects stats pendingReviews].
    destruct (answer w); reflexivity.
  - destruct (pendingProjects_refreshed w) as [-> | ->]; [constructor |].
    apply Forall_forall. intros p Hp.
    apply listed_project_awaits_review in Hp as [_ Hp].
    now apply awaiting_review_iff.
  - destruct (certificateRequests_refreshed w) as [-> | ->]; [constructor |].
    apply Forall_forall. intros r Hr.
    apply listed_request_is_pending in Hr as [_ Hr].
    now apply request_pending_iff.
Qed.

(** ** Updating by key *)

Section UpdateWhereId.
Context {R : Type} (id : R -> Uuid) (upd : R -> R) (key : Uuid).
Hypothesis id_kept : forall r, id (upd r) = id r.

Lemma update_where_id_keys l :
  map id (update_where_id id upd key l) = map id l.
Proof.
  unfold update_where_id. rewrite map_map. apply map_ext.
  intros r. destruct (id r =? key); [apply id_kept | reflexivity].
Qed.

Lemma update_where_id_others l :
  filter (fun r => negb (id r =? key)) (update_where_id id upd key l) =
  filter (fun r => negb (id r =? key)) l.
Proof.
  induction l as [| a l IH]; simpl; [reflexivity |].
  destruct (id a =? key) eqn:E; simpl.
  - rewrite id_kept, E. simpl. exact IH.
  - rewrite E. simpl. now rewrite IH.
Qed.

Lemma update_where_id_missing l :
  find (fun r => id r =? key) l = None -> update_where_id id upd key l = l.
Proof.
  induction l as [| a l IH]; simpl; [reflexivity |].
  destruct (id a =? key); [discriminate |].
  intros H. now rewrite IH.
Qed.

Lemma update_where_id_forall (P : R -> Prop) l :
  (forall r, id r = key -> P (upd r)) ->
  Forall P l -> Forall P (update_where_id id upd key l).
Proof.
  intros Hupd. induction 1 as [| a l Ha Hl IH]; simpl; constructor; [| exact IH].
  destruct (id a =? key) eqn:E; [| exact Ha].
  apply Hupd. now apply String.eqb_eq.
Qed.
End UpdateWhereId.

Lemma database_eta d :
  mkDatabase (profiles d) (projects d) (carbon_credits d) (certificates d)
             (certificate_requests d) = d.
Proof. destruct d; reflexivity. Qed.

(** ** [handleVerifyProject] on every path *)

(** The store a call leaves, whatever the gateway answers: the projects
    table is untouched or updated by key, at most one credit and at most
    one certificate are appended, a certificate only after a credit. *)
Lemma verify_db_shape w projectId status :
  let w' := exec (handleVerifyProject projectId status) w in
  exists rows credits certs,
    db w' = mkDatabase (profiles (db w)) rows
              (carbon_credits (db w) ++ credits)
              (certificates (db w) ++ certs)
              (certificate_requests (db w))
    /\ (rows = projects (db w)
        \/ rows = update_where_id ProjectRow.id
                    (ProjectRow.update (review_patch (ui w) status (clock w)))
                    projectId (projects (db w)))
    /\ (credits = []
        \/ status = Review.verified
           /\ exists project,
                find (fun p => Project.id p =? projectId) (pendingProjects (ui w))
                  = Some project
                /\ credits = [CarbonCreditRow.mk projectId
                                (Project.submitter_id project)
                                (Project.estimated_credits project) "active"])
    /\ (certs = []
        \/ credits <> []
           /\ exists url,
                certs = [CertificateRow.mk projectId
                           (option_map ProfileRow.id (profile (ui w)))
                           (Some url)]).
Proof.
  intros w'. subst w'.
  destruct (answer w) as [message |] eqn:H1.
  { exists (projects (db w)), [], [].
    unfold exec. rewrite (verify_update_refused w projectId status message H1).
    cbn [snd]. unfold with_toasts, tick. cbn [db].
    rewrite !app_nil_r, database_eta. auto. }
  destruct (find (fun p => Project.id p =? projectId) (pendingProjects (ui w)))
    as [project |] eqn:Hfound.
  2: { destruct (verify_update_only w projectId status H1) as (Hdb & _); [now right |].
       eexists _, [], []. rewrite Hdb, !app_nil_r. auto. }
  destruct status.
  2: { destruct (verify_update_only w projectId Review.rejected H1) as (Hdb & _);
         [now left |].
       eexists _, [], []. rewrite Hdb, !app_nil_r. auto. }
  destruct (answer (tick w)) as [message |] eqn:H2.
  { destruct (verify_credit_refused w projectId project H1 Hfound message H2)
      as (Hdb & _).
    eexists _, [], []. rewrite Hdb, !app_nil_r. auto. }
  destruct (verify_credit_issued w projectId project H1 Hfound H2) as (Hdb & _).
  cbv zeta in Hdb.
  destruct (answer (tick (tick w))) as [message |].
  - eexists _, [_], []. rewrite Hdb, !app_nil_r.
    split; [reflexivity |]. split; [auto |]. split; [| auto].
    right. split; [reflexivity |]. exists project. auto.
  - eexists _, [_], [_]. rewrite Hdb.
    split; [reflexivity |]. split; [auto |]. split.
    + right. split; [reflexivity |]. exists project. auto.
    + right. split; [discriminate |]. eexists. reflexivity.
Qed.

(** X6. A decision on one project leaves the rest of the store alone,
    whatever the gateway answers and whichever the decision: profiles and
    certificate requests are untouched, no project is added or removed, the
    projects of another id are untouched, and credits and certificates are
    only appended to: at most one credit, for [projectId] and [active], and
    at most one certificate, for [projectId], never without a credit. *)
Theorem handleVerifyProject_frame (w : World) (projectId : Uuid)
    (status : Review.status) :
  let w' := exec (handleVerifyProject projectId status) w in
  profiles (db w') = profiles (db w)
  /\ certificate_requests (db w') = certificate_requests (db w)
  /\ map ProjectRow.id (projects (db w')) = map ProjectRow.id (projects (db w))
  /\ filter (fun r => negb (ProjectRow.id r =? projectId)) (projects (db w')) =
     filter (fun r => negb (ProjectRow.id r =? projectId)) (projects (db w))
  /\ exists credits certs,
       carbon_credits (db w') = carbon_credits (db w) ++ credits
       /\ certificates (db w') = certificates (db w) ++ certs
       /\ length certs <= length credits <= 1
       /\ Forall (fun c => CarbonCreditRow.project_id c = projectId
                           /\ CarbonCreditRow.status c = "active") credits
       /\ Forall (fun c => CertificateRow.project_id c = projectId) certs.
Proof.
  intros w'.
  destruct (verify_db_shape w projectId status)
    as (rows & credits & certs & Hdb & Hrows & Hcredits & Hcerts).
  fold w' in Hdb. rewrite Hdb. cbn [profiles projects carbon_credits certificates
                                    certificate_requests].
  split; [reflexivity |]. split; [reflexivity |].
  split; [| split].
  - destruct Hrows as [-> | ->]; [reflexivity |].
    now apply update_where_id_keys.
  - destruct Hrows as [-> | ->]; [reflexivity |].
    now apply update_where_id_others.
  - exists credits, certs. split; [reflexivity |]. split; [reflexivity |].
    destruct Hcredits as [-> | (_ & project & _ & ->)];
      destruct Hcerts as [-> | (Hne & url & ->)]; simpl;
      try (exfalso; now apply Hne);
      repeat split; auto; repeat constructor; auto.
Qed.

(** X7. A rejection issues nothing, whatever the gateway answers. *)
Theorem reject_issues_nothing (w : World) (projectId : Uuid) :
  let w' := exec (handleVerifyProject projectId Review.rejected) w in
  carbon_credits (db w') = carbon_credits (db w)
  /\ certificates (db w') = certificates (db w).
Proof.
  intros w'.
  destruct (verify_db_shape w projectId Review.rejected)
    as (rows & credits & certs & Hdb & _ & Hcredits & Hcerts).
  fold w' in Hdb. rewrite Hdb. cbn [carbon_credits certificates].
  destruct Hcredits as [-> | (Hs & _)]; [| discriminate].
  destruct Hcerts as [-> | (Hne & _)]; [| exfalso; now apply Hne].
  now rewrite !app_nil_r.
Qed.

(** X8. The primary key survives a decision: if no two projects share an id
    before the call, none do after it. *)
Theorem handleVerifyProject_keeps_key (w : World) (projectId : Uuid)
    (status : Review.status) :
  NoDup (map ProjectRow.id (projects (db w))) ->
  NoDup (map ProjectRow.id
           (projects (db (exec (handleVerifyProject projectId status) w)))).
Proof.
  intros H.
  destruct (verify_db_shape w projectId status) as (rows & ? & ? & Hdb & Hrows & _).
  cbv zeta in Hdb. rewrite Hdb. cbn [projects].
  destruct Hrows as [-> | ->]; [exact H |].
  now rewrite update_where_id_keys.
Qed.

Lemma handleVerifyProject_keeps_key_witness :
  NoDup (map ProjectRow.id (projects Sample.store))
  /\ NoDup (map ProjectRow.id
              (projects
                 (db (exec (handleVerifyProject "P1" Review.verified)
                           (Sample.loaded Sample.reviewer Sample.store []))))).
Proof.
  assert (H : NoDup (map ProjectRow.id
                       (projects (db (Sample.loaded Sample.reviewer Sample.store [])))))
    by (vm_compute; repeat constructor; simpl; intuition discriminate).
  split; [exact H |].
  exact (handleVerifyProject_keeps_key
           (Sample.loaded Sample.reviewer Sample.store []) "P1" Review.verified H).
Defined.

(** X9. [verified_at] stays in step with the status: if it is set exactly on
    the verified projects before a decision, it is so after it, whichever
    the decision and whatever the gateway answers. *)
Theorem handleVerifyProject_keeps_dated (w : World) (projectId : Uuid)
    (status : Review.status) :
  Forall dated (projects (db w)) ->
  Forall dated (projects (db (exec (handleVerifyProject projectId status) w))).
Proof.
  intros H.
  destruct (verify_db_shape w projectId status) as (rows & ? & ? & Hdb & Hrows & _).
  cbv zeta in Hdb. rewrite Hdb. cbn [projects].
  destruct Hrows as [-> | ->]; [exact H |].
  apply update_where_id_forall; [| exact H].
  intros r _. unfold dated. destruct status; simpl; split; congruence.
Qed.

Lemma handleVerifyProject_keeps_dated_witness :
  Forall dated (projects Sample.store)
  /\ Forall dated
       (projects
          (db (exec (handleVerifyProject "P1" Review.rejected)
                    (Sample.loaded Sample.reviewer Sample.store [])))).
Proof.
  assert (H : Forall dated
                (projects (db (Sample.loaded Sample.reviewer Sample.store [])))).
  { change (Forall dated (projects Sample.store)).
    apply Forall_forall.
    intros r [<- | [<- | [<- | []]]]; unfold dated; simpl; split; congruence. }
  split; [exact H |].
  exact (handleVerifyProject_keeps_dated
           (Sample.loaded Sample.reviewer Sample.store []) "P1" Review.rejected H).
Defined.

(** ** The component state a decision leaves *)

Lemma refreshed_facts w :
  db (refreshed w) = db w
  /\ profile (ui (refreshed w)) = profile (ui w)
  /\ selectedProject (ui (refreshed w)) = selectedProject (ui w)
  /\ verificationNotes (ui (refreshed w)) = verificationNotes (ui w)
  /\ reloaded (refreshed w).
Proof.
  unfold reloaded. rewrite db_refreshed.
  split; [reflexivity |].
  destruct (pendingProjects_refreshed w) as [Hp | Hp],
           (certificateRequests_refreshed w) as [Hr | Hr];
    rewrite Hp, Hr, ui_refreshed; cbv zeta; repeat split; auto.
Qed.

(** Replace the world a refresh has left by a name, keeping what is known
    of it. *)
Ltac settle_refresh :=
  match goal with
  | |- context [refreshed ?W] =>
      let Hdb := fresh "Hdb" in
      let Hprofile := fresh "Hprofile" in
      let Hselected := fresh "Hselected" in
      let Hnotes := fresh "Hnotes" in
      let Hloading := fresh "Hloading" in
      let Hpending := fresh "Hpending" in
      let Hrequests := fresh "Hrequests" in
      destruct (refreshed_facts W)
        as (Hdb & Hprofile & Hselected & Hnotes & Hloading & Hpending & Hrequests);
      cbn [db ui] in Hdb, Hprofile, Hselected, Hnotes;
      generalize dependent (refreshed W); intros
  end;
  cbn [profile pendingProjects selectedProject verificationNotes
       certificateRequests stats loading].

Section VerifySettled.
Variables (w : World) (projectId : Uuid).
Hypothesis Hupdate : answer w = None.

Let outcome (status : Review.status) : Prop :=
  let w' := exec (handleVerifyProject projectId status) w in
  reloaded w'
  /\ profile (ui w') = profile (ui w)
  /\ selectedProject (ui w') = None
  /\ verificationNotes (ui w') = "".

(** Run the call once, whatever is asked of the world it leaves. *)
Ltac name_outcome status :=
  pattern (exec (handleVerifyProject projectId status) w);
  match goal with
  | |- ?Q _ => let P := fresh "P" in set (P := Q)
  end;
  unfold exec.

Ltac read_outcome :=
  match goal with
  | P := _ |- _ => subst P; cbv beta
  end;
  settle_refresh; unfold reloaded;
  cbn [db ui profile pendingProjects selectedProject verificationNotes
       certificateRequests stats loading];
  repeat split; assumption.

Lemma verify_update_only_settles status :
  status = Review.rejected
  \/ find (fun p => Project.id p =? projectId) (pendingProjects (ui w)) = None ->
  outcome status.
Proof.
  intros Hpath. subst outcome. cbv beta zeta. name_outcome status.
  unfold handleVerifyProject, update_projects, setSelectedProject,
    setVerificationNotes.
  run_handler. answered Hupdate. run_handler.
  destruct status.
  - destruct Hpath as [Hpath | Hpath]; [discriminate |].
    rewrite Hpath. run_handler. read_outcome.
  - run_handler. read_outcome.
Qed.

Lemma verify_credit_issued_settles project :
  find (fun p => Project.id p =? projectId) (pendingProjects (ui w)) = Some project ->
  answer (tick w) = None ->
  outcome Review.verified.
Proof.
  intros Hfound H. subst outcome. cbv beta zeta. name_outcome Review.verified.
  unfold handleVerifyProject, update_projects, insert_carbon_credits,
    insert_certificates, setSelectedProject, setVerificationNotes.
  run_handler. answered Hupdate. run_handler. rewrite Hfound. run_handler.
  answered H. run_handler.
  destruct (failure (hd ok (tl (tl (script w))))) as [message |];
    run_handler; read_outcome.
Qed.
End VerifySettled.

Lemma update_where_id_hit {R} (id : R -> Uuid) (upd : R -> R) key (l : list R) r :
  In r (update_where_id id upd key l) -> id r = key ->
  exists r0, In r0 l /\ r = upd r0.
Proof.
  unfold update_where_id. intros Hin Hr.
  apply in_map_iff in Hin as (r0 & Hr0 & Hin). exists r0. split; [exact Hin |].
  destruct (id r0 =? key) eqn:E; [now symmetry |].
  subst r0. apply String.eqb_neq in E. contradiction.
Qed.


(** X11. Once a decision has gone through, the project decided is off the
    list: no project listed after the call has the id decided on. *)
Theorem decided_project_leaves_list (w : World) (projectId : Uuid)
    (status : Review.status) :
  succeed 2 w ->
  let w' := exec (handleVerifyProject projectId status) w in
  forall q, In q (pendingProjects (ui w')) -> Project.id q <> projectId.
Proof.
  intros Hok w'. apply succeed_2 in Hok as [H1 H2].
  assert (H : reloaded w'
              /\ projects (db w') =
                 update_where_id ProjectRow.id
                   (ProjectRow.update (review_patch (ui w) status (clock w)))
                   projectId (projects (db w))).
  { subst w'.
    destruct (find (fun p => Project.id p =? projectId) (pendingProjects (ui w)))
      as [project |] eqn:Hfound.
    - destruct status.
      + destruct (verify_credit_issued w projectId project H1 Hfound H2) as (Hdb & _).
        destruct (verify_credit_issued_settles w projectId H1 project Hfound H2)
          as (Hre & _).
        cbv zeta in Hdb. rewrite Hdb. auto.
      + destruct (verify_update_only w projectId Review.rejected H1) as (Hdb & _);
          [now left |].
        destruct (verify_update_only_settles w projectId H1 Review.rejected)
          as (Hre & _); [now left |].
        cbv zeta in Hdb. rewrite Hdb. auto.
    - destruct (verify_update_only w projectId status H1) as (Hdb & _);
        [now right |].
      destruct (verify_update_only_settles w projectId H1 status)
        as (Hre & _); [now right |].
      cbv zeta in Hdb. rewrite Hdb. auto. }
  destruct H as ((_ & Hlist & _) & Hrows).
  intros q Hq Hid.
  destruct Hlist as [Hlist | Hlist]; rewrite Hlist in Hq; [contradiction |].
  apply listed_project_awaits_review in Hq as [Hin Hq].
  rewrite Hrows in Hin.
  apply update_where_id_hit in Hin as (r0 & _ & Hr0); [| exact Hid].
  rewrite Hr0 in Hq. destruct status; discriminate.
Qed.

Lemma decided_project_leaves_list_witness :
  In (with_submitter Sample.store Sample.older_project)
     (pendingProjects
        (ui (exec (handleVerifyProject "P1" Review.verified)
                  (Sample.loaded Sample.reviewer Sample.store []))))
  /\ Project.id (with_submitter Sample.store Sample.older_project) <> "P1".
Proof.
  assert (H : In (with_submitter Sample.store Sample.older_project)
                 (pendingProjects
                    (ui (exec (handleVerifyProject "P1" Review.verified)
                              (Sample.loaded Sample.reviewer Sample.store [])))))
    by (vm_compute; auto).
  split; [exact H |].
  apply (decided_project_leaves_list
           (Sample.loaded Sample.reviewer Sample.store []) "P1" Review.verified);
    [vm_compute; constructor | exact H].
Defined.

(** X12. The credit is made from the copy of the project on the page, not
    from the store: approving a listed project whose row is no longer in
    the store updates nothing, and still issues the credit (when the two
    writes go through). *)
Theorem approve_listed_project_missing_row (w : World) (projectId : Uuid)
    (project : Project.t) :
  find (fun p => Project.id p =? projectId) (pendingProjects (ui w)) = Some project ->
  find_project (db w) projectId = None ->
  succeed 2 w ->
  let w' := exec (handleVerifyProject projectId Review.verified) w in
  projects (db w') = projects (db w)
  /\ carbon_credits (db w') =
     carbon_credits (db w) ++
     [CarbonCreditRow.mk projectId (Project.submitter_id project)
        (Project.estimated_credits project) "active"].
Proof.
  intros Hfound Hmissing Hok w'. apply succeed_2 in Hok as [H1 H2].
  destruct (verify_credit_issued w projectId project H1 Hfound H2) as (Hdb & _).
  fold w' in Hdb. rewrite Hdb. cbn [projects carbon_credits].
  split; [| reflexivity].
  now apply update_where_id_missing.
Qed.

Lemma approve_listed_project_missing_row_witness :
  projects
    (db (exec (handleVerifyProject "P1" Review.verified)
              (with_db (mkDatabase [] [] [] [] [])
                       (Sample.loaded Sample.reviewer Sample.store [])))) = []
  /\ carbon_credits
       (db (exec (handleVerifyProject "P1" Review.verified)
                 (with_db (mkDatabase [] [] [] [] [])
                          (Sample.loaded Sample.reviewer Sample.store [])))) =
     [CarbonCreditRow.mk "P1" "U1" 500 "active"].
Proof.
  apply (approve_listed_project_missing_row
           (with_db (mkDatabase [] [] [] [] [])
                    (Sample.loaded Sample.reviewer Sample.store []))
           "P1" (with_submitter Sample.store Sample.project)).
  - reflexivity.
  - reflexivity.
  - vm_compute. constructor.
Defined.

(** ** The page *)

Lemma in_render s c :
  In c (render s) ->
  loading s = false
  /\ (c = ViewAllProjects
      \/ (exists project, In project (pendingProjects s) /\ In c (project_card s project))
      \/ (exists request, In request (certificateRequests s) /\ In c (request_card request))).
Proof.
  unfold render. destruct (loading s); [contradiction |].
  intros H. split; [reflexivity |].
  apply in_app_or in H as [[H | H] | H].
  - left. now symmetry.
  - right. left. apply in_flat_map in H. exact H.
  - right. right. apply in_flat_map in H. exact H.
Qed.

Lemma find_listed {X} (id : X -> Uuid) (l : list X) (x : X) :
  In x l -> exists y, find (fun p => id p =? id x) l = Some y /\ id y = id x.
Proof.
  intros H.
  destruct (find (fun p => id p =? id x) l) as [y |] eqn:E.
  - exists y. split; [reflexivity |].
    apply find_some in E as [_ E]. now apply String.eqb_eq.
  - exfalso. apply (find_none _ _ E) in H. now rewrite String.eqb_refl in H.
Qed.

(** X13. An approval clicked on the page is the approval of a project on the
    page: the id its button passes is found in the list, so when the update
    and the credit insert go through a credit is issued, for that id and
    with the submitter and amount of the entry found. *)
Theorem approve_click_issues_credit (w : World) (projectId : Uuid) :
  In (VerifyApprove projectId) (render (ui w)) ->
  succeed 2 w ->
  let w' := exec (handleVerifyProject projectId Review.verified) w in
  exists project,
    In project (pendingProjects (ui w))
    /\ Project.id project = projectId
    /\ carbon_credits (db w') =
       carbon_credits (db w) ++
       [CarbonCreditRow.mk projectId (Project.submitter_id project)
          (Project.estimated_credits project) "active"].
Proof.
  intros Hc Hok w'. apply succeed_2 in Hok as [H1 H2].
  apply in_render in Hc as (_ & [Hc | [(p & Hp & Hc) | (r & _ & Hc)]]).
  - discriminate.
  - unfold project_card in Hc.
    destruct (under_review_here (ui w) p).
    + destruct Hc as [Hc | [Hc | [Hc | []]]]; try discriminate.
      injection Hc as <-.
      destruct (find_listed Project.id _ _ Hp) as (project & Hfound & Hid).
      exists project.
      destruct (verify_credit_issued w _ project H1 Hfound H2) as (Hdb & _).
      fold w' in Hdb. rewrite Hdb. cbn [carbon_credits].
      apply find_some in Hfound as [Hin _]. auto.
    + destruct Hc as [Hc | Hc]; [discriminate |].
      destruct (Project.status p =? "verified"); [| contradiction].
      destruct Hc as [Hc | []]. discriminate.
  - destruct Hc as [Hc | [Hc | []]]; discriminate.
Qed.

Lemma approve_click_issues_credit_witness :
  In (VerifyApprove "P1")
     (render
        (ui (exec (setSelectedProject
                     (Some (with_submitter Sample.store Sample.project)))
                  (Sample.loaded Sample.reviewer Sample.store []))))
  /\ exists project,
       Project.id project = "P1"
       /\ carbon_credits
            (db (exec (handleVerifyProject "P1" Review.verified)
                      (exec (setSelectedProject
                               (Some (with_submitter Sample.store Sample.project)))
                            (Sample.loaded Sample.reviewer Sample.store [])))) =
          [CarbonCreditRow.mk "P1" (Project.submitter_id project)
             (Project.estimated_credits project) "active"].
Proof.
  assert (H : In (VerifyApprove "P1")
                 (render
                    (ui (exec (setSelectedProject
                                 (Some (with_submitter Sample.store Sample.project)))
                              (Sample.loaded Sample.reviewer Sample.store [])))))
    by (vm_compute; auto).
  split; [exact H |].
  destruct (approve_click_issues_credit _ "P1" H) as (project & _ & Hid & Hc).
  - vm_compute. constructor.
  - exists project. split; [exact Hid | exact Hc].
Defined.

(** X14. The "Generate Certificate" button is never on the page after a
    refresh: it is drawn for a listed project whose status is [verified],
    and the list holds none. *)
Theorem generate_certificate_never_offered (w : World) :
  Forall (fun c => forall project, c <> GenerateCertificate project)
         (render (ui (exec fetchVerifierData w))).
Proof.
  apply Forall_forall. intros c Hc project ->.
  destruct (fetchVerifierData_lists_consistent w) as (_ & Hlist & _).
  cbv zeta in Hlist. rewrite Forall_forall in Hlist.
  apply in_render in Hc as (_ & [Hc | [(p & Hp & Hc) | (r & _ & Hc)]]).
  - discriminate.
  - unfold project_card in Hc.
    destruct (under_review_here _ p).
    + destruct Hc as [Hc | [Hc | [Hc | []]]]; discriminate.
    + destruct Hc as [Hc | Hc]; [discriminate |].
      destruct (Project.status p =? "verified") eqn:E; [| contradiction].
      apply String.eqb_eq in E.
      destruct (Hlist p Hp) as [Hs | Hs]; rewrite E in Hs; discriminate.
  - destruct Hc as [Hc | [Hc | []]]; discriminate.
Qed.

Lemma request_button_on_page s c :
  In c (render s) ->
  (exists requestId projectId, c = ApproveCertificate requestId projectId)
  \/ (exists requestId projectId notes, c = RejectCertificate requestId projectId notes) ->
  exists request, In request (certificateRequests s) /\ In c (request_card request).
Proof.
  intros Hc Hkind.
  apply in_render in Hc as (_ & [Hc | [(p & _ & Hc) | Hc]]); [| | exact Hc]; exfalso.
  - subst c. destruct Hkind as [(? & ? & ?) | (? & ? & ? & ?)]; discriminate.
  - unfold project_card in Hc.
    destruct (under_review_here s p).
    + destruct Hc as [Hc | [Hc | [Hc | []]]]; subst c;
        destruct Hkind as [(? & ? & ?) | (? & ? & ? & ?)]; discriminate.
    + destruct Hc as [Hc | Hc].
      * subst c. destruct Hkind as [(? & ? & ?) | (? & ? & ? & ?)]; discriminate.
      * destruct (Project.status p =? "verified"); [| contradiction].
        destruct Hc as [Hc | []]. subst c.
        destruct Hkind as [(? & ? & ?) | (? & ? & ? & ?)]; discriminate.
Qed.

(** X15. After a refresh, the two buttons of a request card name a row of the
    store: the ids they pass are the [id] and the [project_id] of one
    request of the store, whose status is [pending]. *)
Theorem request_buttons_name_store_rows (w : World) (requestId projectId : Uuid) :
  In (ApproveCertificate requestId projectId)
     (render (ui (exec fetchVerifierData w)))
  \/ (exists notes,
        In (RejectCertificate requestId projectId notes)
           (render (ui (exec fetchVerifierData w)))) ->
  exists r,
    In r (certificate_requests (db w))
    /\ CertificateRequestRow.id r = requestId
    /\ CertificateRequestRow.project_id r = projectId
    /\ CertificateRequestRow.status r = Some "pending".
Proof.
  fold (refreshed w). intros H.
  assert (Hcard : exists request c,
             In request (certificateRequests (ui (refreshed w)))
             /\ In c (request_card request)
             /\ (c = ApproveCertificate requestId projectId
                 \/ exists notes, c = RejectCertificate requestId projectId notes)).
  { destruct H as [H | (notes & H)];
      (destruct (request_button_on_page _ _ H) as (request & Hr & Hc);
       [eauto 6 | exists request; eauto 6]). }
  destruct Hcard as (request & c & Hr & Hc & Hkind).
  destruct (certificateRequests_refreshed w) as [E | E]; rewrite E in Hr;
    [contradiction |].
  apply listed_request_is_pending in Hr as [Hin Hp].
  apply request_pending_iff in Hp.
  exists (CertificateRequest.row request).
  unfold request_card in Hc.
  destruct Hc as [Hc | [Hc | []]]; subst c;
    destruct Hkind as [Hk | (n & Hk)]; try discriminate;
    injection Hk; intros; subst; auto.
Qed.

Lemma request_buttons_name_store_rows_witness :
  In (ApproveCertificate "R1" "P3")
     (render (ui (exec fetchVerifierData
                       (Sample.mounted Sample.reviewer Sample.store []))))
  /\ exists r,
       In r (certificate_requests Sample.store)
       /\ CertificateRequestRow.id r = "R1"
       /\ CertificateRequestRow.project_id r = "P3"
       /\ CertificateRequestRow.status r = Some "pending".
Proof.
  assert (H : In (ApproveCertificate "R1" "P3")
                 (render (ui (exec fetchVerifierData
                                   (Sample.mounted Sample.reviewer Sample.store [])))))
    by (vm_compute; auto).
  split; [exact H |].
  apply (request_buttons_name_store_rows
           (Sample.mounted Sample.reviewer Sample.store []) "R1" "P3").
  left. exact H.
Defined.

(** ** [handleCertificateRequest] on every path *)

Lemma request_db_shape w requestId projectId status notes :
  let w' := exec (handleCertificateRequest requestId projectId status notes) w in
  exists rows certs,
    db w' = mkDatabase (profiles (db w)) (projects (db w)) (carbon_credits (db w))
              (certificates (db w) ++ certs) rows
    /\ (rows = certificate_requests (db w)
        \/ rows = update_where_id CertificateRequestRow.id
                    (CertificateRequestRow.update
                       (CertificateRequestRow.mk_patch (Processing.to_string status)
                          (clock w) (option_map ProfileRow.id (profile (ui w)))
                          notes))
                    requestId (certificate_requests (db w)))
    /\ (certs = []
        \/ status = Processing.approved
           /\ certs = [CertificateRow.mk projectId
                         (option_map ProfileRow.id (profile (ui w))) None]).
Proof.
  intros w'. subst w'.
  destruct (answer w) as [message |] eqn:H1.
  { exists (certificate_requests (db w)), [].
    unfold exec.
    rewrite (request_update_refused w requestId projectId notes status message H1).
    cbn [snd]. unfold with_toasts, tick. cbn [db].
    rewrite app_nil_r, database_eta. auto. }
  destruct status.
  - destruct (answer (tick w)) as [message |] eqn:H2.
    + destruct (request_certificate_refused w requestId projectId notes message H1 H2)
        as (Hdb & _).
      eexists _, []. rewrite Hdb, app_nil_r. auto.
    + destruct (request_processed w requestId projectId notes Processing.approved H1)
        as (Hdb & _); [now right |].
      eexists _, [_]. rewrite Hdb. auto.
  - destruct (request_processed w requestId projectId notes Processing.rejected H1)
      as (Hdb & _); [now left |].
    eexists _, []. rewrite Hdb. auto.
Qed.

(** X16. Processing a request leaves the rest of the store alone, whatever the
    gateway answers: profiles, projects and credits are untouched, no
    request is added or removed, the requests of another id are untouched,
    and at most one certificate is appended, for [projectId] and without a
    url; a rejection appends none. *)
Theorem handleCertificateRequest_frame (w : World) (requestId projectId : Uuid)
    (status : Processing.status) (notes : option string) :
  let w' := exec (handleCertificateRequest requestId projectId status notes) w in
  profiles (db w') = profiles (db w)
  /\ projects (db w') = projects (db w)
  /\ carbon_credits (db w') = carbon_credits (db w)
  /\ map CertificateRequestRow.id (certificate_requests (db w')) =
     map CertificateRequestRow.id (certificate_requests (db w))
  /\ filter (fun r => negb (CertificateRequestRow.id r =? requestId))
            (certificate_requests (db w')) =
     filter (fun r => negb (CertificateRequestRow.id r =? requestId))
            (certificate_requests (db w))
  /\ exists certs,
       certificates (db w') = certificates (db w) ++ certs
       /\ length certs <= 1
       /\ Forall (fun c => CertificateRow.project_id c = projectId
                           /\ CertificateRow.certificate_url c = None) certs
       /\ (status = Processing.rejected -> certs = []).
Proof.
  intros w'.
  destruct (request_db_shape w requestId projectId status notes)
    as (rows & certs & Hdb & Hrows & Hcerts).
  fold w' in Hdb. rewrite Hdb.
  cbn [profiles projects carbon_credits certificates certificate_requests].
  do 3 (split; [reflexivity |]).
  split; [| split].
  - destruct Hrows as [-> | ->]; [reflexivity |].
    now apply update_where_id_keys.
  - destruct Hrows as [-> | ->]; [reflexivity |].
    now apply update_where_id_others.
  - exists certs. split; [reflexivity |].
    destruct Hcerts as [-> | (Hs & ->)]; simpl.
    + repeat split; auto.
    + repeat split; auto. intros E. rewrite E in Hs. discriminate.
Qed.

(** X17. The handler never breaks the constraint of the migration on
    [status]: if every request satisfies it before the call, every request
    does after it, whatever the gateway answers. *)
Theorem handleCertificateRequest_keeps_status_check (w : World)
    (requestId projectId : Uuid) (status : Processing.status)
    (notes : option string) :
  Forall (fun r => status_check r = true) (certificate_requests (db w)) ->
  Forall (fun r => status_check r = true)
         (certificate_requests
            (db (exec (handleCertificateRequest requestId projectId status notes) w))).
Proof.
  intros H.
  destruct (request_db_shape w requestId projectId status notes)
    as (rows & certs & Hdb & Hrows & _).
  cbv zeta in Hdb. rewrite Hdb. cbn [certificate_requests].
  destruct Hrows as [-> | ->]; [exact H |].
  apply update_where_id_forall; [| exact H].
  intros r _. destruct status; reflexivity.
Qed.

Lemma handleCertificateRequest_keeps_status_check_witness :
  Forall (fun r => status_check r = true) (certificate_requests Backlog.store)
  /\ Forall (fun r => status_check r = true)
            (certificate_requests
               (db (exec (handleCertificateRequest "R1" "P3" Processing.approved None)
                         (Sample.loaded Sample.reviewer Backlog.store [])))).
Proof.
  assert (H : Forall (fun r => status_check r = true)
                (certificate_requests
                   (db (Sample.loaded Sample.reviewer Backlog.store []))))
    by (repeat constructor).
  split; [exact H |].
  exact (handleCertificateRequest_keeps_status_check
           (Sample.loaded Sample.reviewer Backlog.store []) "R1" "P3"
           Processing.approved None H).
Defined.

(** X18. The certificate does not depend on the request: approving an id that
    no request of the store has updates nothing, and still adds the
    certificate for the project id passed (when the two writes go
    through). *)
Theorem approve_request_missing_row (w : World) (requestId projectId : Uuid)
    (notes : option string) :
  find_request (db w) requestId = None ->
  succeed 2 w ->
  let w' := exec (handleCertificateRequest requestId projectId
                    Processing.approved notes) w in
  certificate_requests (db w') = certificate_requests (db w)
  /\ certificates (db w') =
     certificates (db w) ++
     [CertificateRow.mk projectId (option_map ProfileRow.id (profile (ui w))) None].
Proof.
  intros Hmissing Hok w'. apply succeed_2 in Hok as [H1 H2].
  destruct (request_processed w requestId projectId notes Processing.approved H1)
    as (Hdb & _); [now right |].
  fold w' in Hdb. rewrite Hdb. cbn [certificate_requests certificates].
  split; [| reflexivity].
  now apply update_where_id_missing.
Qed.

Lemma approve_request_missing_row_witness :
  certificate_requests
    (db (exec (handleCertificateRequest "R9" "P3" Processing.approved None)
              (Sample.loaded Sample.reviewer Sample.store []))) =
    certificate_requests Sample.store
  /\ certificates
       (db (exec (handleCertificateRequest "R9" "P3" Processing.approved None)
                 (Sample.loaded Sample.reviewer Sample.store []))) =
     [CertificateRow.mk "P3" (Some "V1") None].
Proof.
  apply (approve_request_missing_row
           (Sample.loaded Sample.reviewer Sample.store []) "R9" "P3" None).
  - reflexivity.
  - vm_compute. constructor.
Defined.

(** The page after a request has been processed. *)
Lemma request_processed_settles w requestId projectId status notes :
  answer w = None ->
  status = Processing.rejected \/ answer (tick w) = None ->
  let w' := exec (handleCertificateRequest requestId projectId status notes) w in
  reloaded w'
  /\ profile (ui w') = profile (ui w)
  /\ selectedProject (ui w') = selectedProject (ui w)
  /\ verificationNotes (ui w') = verificationNotes (ui w).
Proof.
  intros H Hnext. cbv zeta.
  pattern (exec (handleCertificateRequest requestId projectId status notes) w).
  match goal with |- ?Q _ => set (P := Q) end.
  unfold exec, handleCertificateRequest, update_certificate_requests,
    insert_certificates.
  run_handler. answered H. run_handler.
  destruct status.
  - destruct Hnext as [Hnext | Hnext]; [discriminate |].
    run_handler. answered Hnext. run_handler.
    subst P; cbv beta. settle_refresh. unfold reloaded. repeat split; assumption.
  - run_handler.
    subst P; cbv beta. settle_refresh. unfold reloaded. repeat split; assumption.
Qed.

(** X19. Once a request has been processed, it is off the list: no request
    listed after the call has the id processed. *)
Theorem processed_request_leaves_list (w : World) (requestId projectId : Uuid)
    (status : Processing.status) (notes : option string) :
  succeed 2 w ->
  let w' := exec (handleCertificateRequest requestId projectId status notes) w in
  forall q, In q (certificateRequests (ui w')) -> CertificateRequest.id q <> requestId.
Proof.
  intros Hok w'. apply succeed_2 in Hok as [H1 H2].
  destruct (request_processed w requestId projectId notes status H1) as (Hdb & _);
    [now right |].
  destruct (request_processed_settles w requestId projectId status notes H1)
    as ((_ & _ & Hlist) & _); [now right |].
  fold w' in Hdb, Hlist.
  intros q Hq Hid.
  destruct Hlist as [Hlist | Hlist]; rewrite Hlist in Hq; [contradiction |].
  apply listed_request_is_pending in Hq as [Hin Hq].
  rewrite Hdb in Hin. cbn [certificate_requests] in Hin.
  apply update_where_id_hit in Hin as (r0 & _ & Hr0); [| exact Hid].
  rewrite Hr0 in Hq. destruct status; discriminate.
Qed.

Lemma processed_request_leaves_list_witness :
  In (with_project_and_requester Backlog.store Backlog.later_request)
     (certificateRequests
        (ui (exec (handleCertificateRequest "R1" "P3" Processing.rejected
                     (Some "Certificate request rejected"))
                  (Sample.loaded Sample.reviewer Backlog.store []))))
  /\ CertificateRequest.id
       (with_project_and_requester Backlog.store Backlog.later_request) <> "R1".
Proof.
  assert (H : In (with_project_and_requester Backlog.store Backlog.later_request)
                 (certificateRequests
                    (ui (exec (handleCertificateRequest "R1" "P3" Processing.rejected
                                 (Some "Certificate request rejected"))
                              (Sample.loaded Sample.reviewer Backlog.store [])))))
    by (vm_compute; auto).
  split; [exact H |].
  apply (processed_request_leaves_list
           (Sample.loaded Sample.reviewer Backlog.store []) "R1" "P3"
           Processing.rejected (Some "Certificate request rejected"));
    [vm_compute; constructor | exact H].
Defined.

